(** * Heimdall: the identity-and-certificate API of the Bifrost VPN

    A shallow embedding of [src/heimdall/cmd/heimdall.go] together with the
    SQLite schema created by the deployment playbook.  The five tables are
    lists of rows in insertion (rowid) order; every SQL statement that the
    handlers issue is one function on the database value; a handler is a
    function from a request and a database to an outcome, which is either
    the response that was sent together with the database left behind, or a
    panic. *)

From Stdlib Require Import ZArith Ascii.
From Stdlib Require Import DecimalString DecimalN HexadecimalString HexadecimalN.
From stdpp Require Import base option list strings gmap sorting.

Local Open Scope string_scope.
Local Open Scope list_scope.
Local Open Scope Z_scope.

(** ** The parts of the Go library that the handlers call *)

Module Go.

(** [strings.Split(s, sep)] for a one-byte separator.  The result is never
    empty: splitting the empty string gives one empty chunk. *)
Fixpoint Split (s : string) (sep : ascii) : list string :=
  match s with
  | EmptyString => [EmptyString]
  | String a s' =>
      if decide (a = sep) then EmptyString :: Split s' sep
      else match Split s' sep with
           | chunk :: chunks => String a chunk :: chunks
           | [] => [String a EmptyString]
           end
  end.

(** [strings.Join(elems, sep)]. *)
Fixpoint Join (elems : list string) (sep : string) : string :=
  match elems with
  | [] => EmptyString
  | [e] => e
  | e :: rest => e +:+ sep +:+ Join rest sep
  end.

(** [strconv.ParseUint(s, 10, _)] before the range check: a non-empty run
    of decimal digits, nothing else. *)
Definition ParseUint (s : string) : option N :=
  match s with
  | EmptyString => None
  | _ => N.of_uint <$> DecimalString.NilEmpty.uint_of_string s
  end.

(** [strconv.ParseInt(s, 10, 32)]: an optional sign, then [ParseUint], then
    the range check against [1 << 31].  [None] stands for a non-nil
    [err] (syntax or range). *)
Definition ParseInt (s : string) : option Z :=
  match s with
  | EmptyString => None
  | String c rest =>
      let '(neg, digits) :=
        if decide (c = "+"%char) then (false, rest)
        else if decide (c = "-"%char) then (true, rest)
        else (false, s) in
      un ← ParseUint digits;
      let cutoff := 2147483648%N in
      if neg then (if decide (cutoff < un)%N then None else Some (- Z.of_N un))
      else (if decide (cutoff ≤ un)%N then None else Some (Z.of_N un))
  end.

(** The decimal rendering of an integer: what [fmt.Sprintf("%d", n)]
    prints, and what SQLite stores when an integer is bound to a column of
    TEXT affinity. *)
Definition FormatUint (n : N) : string :=
  DecimalString.NilEmpty.string_of_uint (N.to_uint n).

Definition FormatInt (z : Z) : string :=
  if decide (z < 0) then String "-" (FormatUint (Z.to_N (- z)))
  else FormatUint (Z.to_N z).

(** [fmt.Sprintf("%x", n)] for a non-negative [*big.Int] *)
Definition Sprintf_x (n : N) : string :=
  HexadecimalString.NilEmpty.string_of_uint (N.to_hex_uint n).

Definition lower_hex (c : ascii) : ascii :=
  let n := N_of_ascii c in
  if decide (65 ≤ n ≤ 70)%N then ascii_of_N (n + 32) else c.

Fixpoint map_string (f : ascii → ascii) (s : string) : string :=
  match s with
  | EmptyString => EmptyString
  | String a s' => String (f a) (map_string f s')
  end.

(** [new(big.Int).SetString(s, 16)]: an optional sign and a non-empty run
    of hexadecimal digits of either case; [None] when [ok] is false. *)
Definition SetString16 (s : string) : option Z :=
  let '(neg, digits) :=
    match s with
    | String c rest =>
        if decide (c = "+"%char) then (false, rest)
        else if decide (c = "-"%char) then (true, rest)
        else (false, s)
    | EmptyString => (false, s)
    end in
  match digits with
  | EmptyString => None
  | _ =>
      d ← HexadecimalString.NilEmpty.uint_of_string (map_string lower_hex digits);
      let n := Z.of_N (N.of_hex_uint d) in
      Some (if neg then - n else n)
  end.

(** [sort.Slice] and [sort.Strings].  Go's sort is not stable and leaves
    the order of elements with equal keys open; the model fixes one
    admissible result, the one of a merge sort.  [le x y] is the negation
    of the source's [less(y, x)]. *)
Definition sort_Slice {A} (le : relation A) `{!RelDecision le} (l : list A) : list A :=
  merge_sort le l.

Definition sort_Strings (l : list string) : list string :=
  sort_Slice String.le l.

End Go.

(** [extractSegment(path, n)] *)
Definition extractSegment (path : string) (n : nat) : string :=
  let chunks := Go.Split path "/" in
  match chunks !! n with
  | Some chunk => chunk
  | None => EmptyString
  end.

(** ** The database

    Columns of type [timestamp] hold an instant; the instant is a number of
    seconds.  SQLite keeps such a column as a fixed-width text and the
    driver hands it to Go as a fixed-width text, so comparing two of them
    as the code does (in SQL with [<] and [order by], in Go with [<] on
    strings) is comparing the instants. *)

Definition Time := Z.

(** [CREATE TABLE certs (rowid integer primary key, email text not null,
    fingerprint text not null unique, desc text, created timestamp not null
    default current_timestamp, expires timestamp not null, revoked timestamp
    default null)] *)
Record certs_row := {
  c_email : string;
  c_fingerprint : string;
  c_desc : string;
  c_created : Time;
  c_expires : Time;
  c_revoked : option Time
}.

(** [CREATE TABLE totp (rowid integer primary key, email text not null
    unique, seed text not null, created timestamp not null default
    current_timestamp, updated timestamp not null default
    current_timestamp)] *)
Record totp_row := {
  t_email : string;
  t_seed : string;
  t_created : Time;
  t_updated : Time
}.

(** [CREATE TABLE events (rowid integer primary key, event text not null,
    email text not null, value text not null, ts timestamp not null default
    current_timestamp)] *)
Record events_row := {
  e_event : string;
  e_email : string;
  e_value : string;
  e_ts : Time
}.

(** [CREATE TABLE settings (rowid integer primary key, key text not null
    unique, value text not null, modified timestamp not null default
    current_timestamp)] *)
Record settings_row := {
  s_key : string;
  s_value : string;
  s_modified : Time
}.

(** [CREATE TABLE whitelist (rowid integer primary key, email text not null
    unique, modified timestamp not null default current_timestamp)] *)
Record whitelist_row := {
  w_email : string;
  w_modified : Time
}.

Record DB := {
  certs : list certs_row;
  totp : list totp_row;
  events : list events_row;
  settings_table : list settings_row;
  whitelist : list whitelist_row
}.

Definition set_certs (db : DB) (x : list certs_row) : DB :=
  {| certs := x; totp := totp db; events := events db;
     settings_table := settings_table db; whitelist := whitelist db |}.
Definition set_totp (db : DB) (x : list totp_row) : DB :=
  {| certs := certs db; totp := x; events := events db;
     settings_table := settings_table db; whitelist := whitelist db |}.
Definition set_events (db : DB) (x : list events_row) : DB :=
  {| certs := certs db; totp := totp db; events := x;
     settings_table := settings_table db; whitelist := whitelist db |}.
Definition set_settings_table (db : DB) (x : list settings_row) : DB :=
  {| certs := certs db; totp := totp db; events := events db;
     settings_table := x; whitelist := whitelist db |}.
Definition set_whitelist (db : DB) (x : list whitelist_row) : DB :=
  {| certs := certs db; totp := totp db; events := events db;
     settings_table := settings_table db; whitelist := x |}.

(** ** The SQL statements of the handlers

    One definition per statement text.  A [select] returns its rows; with no
    [order by] they come in table order.  A write returns the new database,
    or [None] where the engine rejects the statement.  [now] is the engine's
    clock at the time of the request ([datetime('now')] and
    [current_timestamp]). *)

Module Sql.
Section statements.
Context (now : Time).

(** [select key, value from settings] *)
Definition select_settings (db : DB) : list (string * string) :=
  (λ r, (s_key r, s_value r)) <$> settings_table db.

(** [select email from whitelist order by email] *)
Definition select_whitelist (db : DB) : list string :=
  merge_sort String.le (w_email <$> whitelist db).

(** [insert or replace into settings (key, value) values (?, ?)]: the row
    that holds the key, if any, is deleted and a new row is inserted. *)
Definition replace_setting (key value : string) (db : DB) : option DB :=
  Some (set_settings_table db
          (filter (λ r, s_key r ≠ key) (settings_table db)
           ++ [{| s_key := key; s_value := value; s_modified := now |}])).

(** [insert or replace into totp (email, seed, updated) values (?, ?,
    datetime('now'))]: as above; the inserted row names no [created], so
    that column takes its default, [current_timestamp]. *)
Definition replace_totp (email seed : string) (db : DB) : option DB :=
  Some (set_totp db
          (filter (λ r, t_email r ≠ email) (totp db)
           ++ [{| t_email := email; t_seed := seed;
                  t_created := now; t_updated := now |}])).

(** [insert into events (event, email, value) values (?, ?, ?)] *)
Definition insert_event (event email value : string) (db : DB) : option DB :=
  Some (set_events db
          (events db ++ [{| e_event := event; e_email := email;
                            e_value := value; e_ts := now |}])).

(** [select created from totp where email=?] *)
Definition select_totp_created (email : string) (db : DB) : list Time :=
  t_created <$> filter (λ r, t_email r = email) (totp db).

(** [select email from totp where email=?] *)
Definition select_totp_email (email : string) (db : DB) : list string :=
  t_email <$> filter (λ r, t_email r = email) (totp db).

(** [select fingerprint, created, expires, desc, revoked from certs where
    email=?] *)
Definition select_certs_by_email (email : string) (db : DB) : list certs_row :=
  filter (λ r, c_email r = email) (certs db).

(** [select fingerprint from certs where email=?] *)
Definition select_fingerprints (email : string) (db : DB) : list string :=
  c_fingerprint <$> filter (λ r, c_email r = email) (certs db).

Definition revoke_row (r : certs_row) : certs_row :=
  {| c_email := c_email r; c_fingerprint := c_fingerprint r;
     c_desc := c_desc r; c_created := c_created r;
     c_expires := c_expires r; c_revoked := Some now |}.

(** [update certs set revoked=datetime('now') where email=?] *)
Definition revoke_by_email (email : string) (db : DB) : option DB :=
  Some (set_certs db
          ((λ r, if decide (c_email r = email) then revoke_row r else r)
             <$> certs db)).

(** [update certs set revoked=datetime('now') where fingerprint=?] *)
Definition revoke_by_fingerprint (fp : string) (db : DB) : option DB :=
  Some (set_certs db
          ((λ r, if decide (c_fingerprint r = fp) then revoke_row r else r)
             <$> certs db)).

(** [delete from totp where email=?] *)
Definition delete_totp (email : string) (db : DB) : option DB :=
  Some (set_totp db (filter (λ r, t_email r ≠ email) (totp db))).

(** [select t.email, t.created, c.fingerprint, c.created, c.expires,
    c.revoked, c.desc from totp as t, certs as c where t.email=c.email] *)
Definition select_totp_join_certs (db : DB) : list (totp_row * certs_row) :=
  t ← totp db;
  c ← filter (λ c, t_email t = c_email c) (certs db);
  [(t, c)].

(** [select t.created, c.fingerprint, c.created, c.expires, c.desc,
    c.revoked from totp as t left join certs as c on t.email=c.email where
    t.email=?]: a [totp] row without certificates gives one row whose
    [c.*] columns are all null. *)
Definition select_totp_left_join_certs (email : string) (db : DB)
  : list (totp_row * option certs_row) :=
  t ← filter (λ t, t_email t = email) (totp db);
  match filter (λ c, t_email t = c_email c) (certs db) with
  | [] => [(t, None)]
  | cs => (λ c, (t, Some c)) <$> cs
  end.

(** [insert into certs (email, fingerprint, desc, expires) values (?, ?,
    ?, date('now','+%d day'))].  [expires] is what the engine computes for
    the date expression, null when it is out of range; the statement is
    rejected when that violates [not null] or when the fingerprint is
    already there. *)
Definition insert_cert (email fp desc : string) (expires : option Time)
    (db : DB) : option DB :=
  match expires with
  | None => None
  | Some exp =>
      if decide (fp ∈ c_fingerprint <$> certs db) then None
      else Some (set_certs db
                   (certs db ++ [{| c_email := email; c_fingerprint := fp;
                                    c_desc := desc; c_created := now;
                                    c_expires := exp; c_revoked := None |}]))
  end.

(** [select email, fingerprint, created, expires, revoked, desc from certs
    where fingerprint=?] *)
Definition select_cert (fp : string) (db : DB) : list certs_row :=
  filter (λ r, c_fingerprint r = fp) (certs db).

(** [select email from certs where fingerprint=?] *)
Definition select_cert_email (fp : string) (db : DB) : list string :=
  c_email <$> filter (λ r, c_fingerprint r = fp) (certs db).

Definition ts_desc : relation events_row := λ x y, e_ts y ≤ e_ts x.

#[global] Instance ts_desc_dec : RelDecision ts_desc.
Proof. intros x y. unfold ts_desc. apply _. Defined.

(** [select event, email, value, ts from events order by ts desc] *)
Definition select_events_all (db : DB) : list events_row :=
  merge_sort ts_desc (events db).

(** [select event, email, value, ts from events order by ts desc limit 25] *)
Definition select_events (db : DB) : list events_row :=
  take 25 (merge_sort ts_desc (events db)).

(** [select event, email, value, ts from events where ts < ? order by ts
    desc limit 25] *)
Definition select_events_before (before : Time) (db : DB) : list events_row :=
  take 25 (merge_sort ts_desc (filter (λ r, e_ts r < before) (events db))).

(** [delete from events] *)
Definition delete_events (db : DB) : option DB :=
  Some (set_events db []).

(** [insert or replace into whitelist (email) values (?)] *)
Definition replace_whitelist (email : string) (db : DB) : option DB :=
  Some (set_whitelist db
          (filter (λ r, w_email r ≠ email) (whitelist db)
           ++ [{| w_email := email; w_modified := now |}])).

(** [delete from whitelist where email=?] *)
Definition delete_whitelist (email : string) (db : DB) : option DB :=
  Some (set_whitelist db (filter (λ r, w_email r ≠ email) (whitelist db))).

End statements.
End Sql.

(** ** Collaborators

    What the handlers obtain from outside the file: the Go standard
    library's clock format, random source and file system, the TOTP
    library, the template engine, the engine's date arithmetic, and the
    repository's own packages [playground/ca] and [playground/httputil],
    whose code is not among these sources.  Their results are inputs of the
    model.  Each fallible call yields [None] where the Go call returns a
    non-nil [err]. *)

(** [*otp.Key] *)
Record otp_Key := {
  Secret : string;                 (* key.Secret() *)
  Image : option string            (* key.Image(200, 200), then png.Encode: the PNG bytes *)
}.

(** [pkix.Name], the two fields that are set *)
Record pkix_Name := {
  Organization : list string;
  CommonName : string
}.

(** [*ca.Keypair] *)
Record ca_Keypair := {
  CertFingerprint : option string;          (* kp.CertFingerprint() *)
  ToPEM : option (string * string)          (* kp.ToPEM("", false): certificate, key *)
}.

(** [*ca.Authority] after [LoadFromPEM] *)
Record ca_Authority := {
  CreateClientKeypair : Z → pkix_Name → Z → Z → option ca_Keypair;
  ExportCertChain : string
}.

(** The data handed to the [.ovpn] template *)
Record ovpn_data := {
  tpl_CA : string;
  tpl_Cert : string;
  tpl_Key : string;
  tpl_TLSAuth : string
}.

Record World := {
  (** [time.Parse("2006-01-02T15:04:05Z", s)]; the instant is the one that
      [t.Format("2006-01-02 15:04:05")] then spells out, in whole seconds *)
  time_Parse : string → option Time;
  (** [date('now','+d day')] as evaluated by the engine at [now] *)
  sqlite_date : Time → Z → option Time;
  (** [totp.Generate(totp.GenerateOpts{Issuer: i, AccountName: a})] *)
  totp_Generate : string → string → option otp_Key;
  (** [base64.StdEncoding.EncodeToString] *)
  base64_EncodeToString : string → string;
  (** [rand.Int(rand.Reader, max)] *)
  rand_Int : N → option N;
  (** [authority.LoadFromPEM(cfg.CACertFile, cfg.CAKeyFile, cfg.CAKeyPassword)] *)
  ca_LoadFromPEM : option ca_Authority;
  (** [ioutil.ReadFile(cfg.TLSAuthFile)] *)
  ReadFile_TLSAuth : option string;
  (** [template.ParseFiles(cfg.OVPNTemplateFile)]; the function is [t.Execute] *)
  template_ParseFiles : option (ovpn_data → option string)
}.

(** ** Requests, responses and the handler monad *)

(** The decoded body of [POST /certs/<email>] *)
Record issue_body := {
  body_Email : string;
  body_Description : string
}.

Record Request := {
  Method : string;
  Path : string;                      (* req.URL.Path *)
  (** [req.ParseForm()], then [req.FormValue("before")]: [None] when
      [ParseForm] returns an error, otherwise the parameter, empty when it is
      not given *)
  ParseForm : option string;
  (** [httputil.PopulateFromBody(reqBody, req)]; [None] when it returns an
      error *)
  PopulateFromBody : option issue_body
}.

(** A Go string that receives a scanned [timestamp] column: [None] is the
    empty string, which is what the variable still holds when the column was
    null ([rows.Scan] stops with an error that the handlers ignore). *)
Definition TimeString := option Time.

(** [type settings struct].  The two [int] fields are integers without a
    bound: Go's [int] has 64 bits on the machines the service is built for,
    more than [loadSettings] reads back. *)
Record settings := {
  ServiceName : string;
  ClientLimit : Z;
  IssuedCertDuration : Z;
  WhitelistedDomains : list string;
  WhitelistedUsers : list string
}.

Record cert := {
  Fingerprint : string;
  Created : TimeString;
  Expires : TimeString;
  Revoked : TimeString;
  Description : string
}.

Record user := {
  Email : string;
  user_Created : TimeString;
  ActiveCerts : list cert;
  RevokedCerts : list cert
}.

Record event := {
  Event : string;
  event_Email : string;
  Value : string;
  Timestamp : Time
}.

(** The JSON objects that the handlers send *)
Inductive Json :=
| J_empty                                           (* struct{}{} *)
| J_user (u : user)
| J_TOTP (email TOTPURL : string)
| J_RevokedCerts (fps : list string)
| J_Certs (us : list user)
| J_OVPN (OVPNDataURL : string)
| J_cert (email : string) (c : cert)
| J_Events (evs : list event)
| J_Users (emails : list string).

Record Response := {
  status : Z;
  body : Json
}.

Definition StatusOK : Z := 200.
Definition StatusCreated : Z := 201.
Definition StatusBadRequest : Z := 400.
Definition StatusNotFound : Z := 404.
Definition StatusInternalServerError : Z := 500.

(** The result of running a piece of handler code on a database: it ends
    with a value, or it panics; either way the database it leaves behind is
    known. *)
Inductive Res (A : Type) :=
| Ok (a : A) (db : DB)
| Panics (db : DB).
Arguments Ok {A} a db.
Arguments Panics {A} db.

Definition M (A : Type) : Type := DB → Res A.

#[global] Instance M_ret : MRet M := λ A a db, Ok a db.
#[global] Instance M_bind : MBind M := λ A B f m db,
  match m db with
  | Ok a db' => f a db'
  | Panics db' => Panics db'
  end.

(** [panic(...)] *)
Definition panic {A} : M A := λ db, Panics db.

(** [cxn.Query(q, params...)] followed by reading the rows *)
Definition Query {A} (q : DB → A) : M A := λ db, Ok (q db) db.

(** [writeDatabaseByQuery(query, params...)] *)
Definition writeDatabaseByQuery (stmt : DB → option DB) : M () := λ db,
  match stmt db with
  | Some db' => Ok () db'
  | None => Panics db
  end.

(** [if v, err := f(); err != nil { panic(err) }] *)
Definition must {A} (r : option A) : M A :=
  match r with
  | Some a => mret a
  | None => panic
  end.

(** [httputil.SendJSON(writer, status, object)] *)
Definition SendJSON (st : Z) (object : Json) : M Response :=
  mret {| status := st; body := object |}.

(** ** The handlers *)

Section handlers.
Context (W : World) (now : Time).

Definition set_ServiceName (s : settings) (v : string) : settings :=
  {| ServiceName := v; ClientLimit := ClientLimit s;
     IssuedCertDuration := IssuedCertDuration s;
     WhitelistedDomains := WhitelistedDomains s;
     WhitelistedUsers := WhitelistedUsers s |}.
Definition set_ClientLimit (s : settings) (v : Z) : settings :=
  {| ServiceName := ServiceName s; ClientLimit := v;
     IssuedCertDuration := IssuedCertDuration s;
     WhitelistedDomains := WhitelistedDomains s;
     WhitelistedUsers := WhitelistedUsers s |}.
Definition set_IssuedCertDuration (s : settings) (v : Z) : settings :=
  {| ServiceName := ServiceName s; ClientLimit := ClientLimit s;
     IssuedCertDuration := v;
     WhitelistedDomains := WhitelistedDomains s;
     WhitelistedUsers := WhitelistedUsers s |}.
Definition set_WhitelistedDomains (s : settings) (v : list string) : settings :=
  {| ServiceName := ServiceName s; ClientLimit := ClientLimit s;
     IssuedCertDuration := IssuedCertDuration s;
     WhitelistedDomains := v;
     WhitelistedUsers := WhitelistedUsers s |}.
Definition set_WhitelistedUsers (s : settings) (v : list string) : settings :=
  {| ServiceName := ServiceName s; ClientLimit := ClientLimit s;
     IssuedCertDuration := IssuedCertDuration s;
     WhitelistedDomains := WhitelistedDomains s;
     WhitelistedUsers := v |}.

(** [&settings{"Bifröst VPN", 2, 90, []string{}, []string{}}] *)
Definition default_settings : settings :=
  {| ServiceName := "Bifröst VPN"; ClientLimit := 2; IssuedCertDuration := 90;
     WhitelistedDomains := []; WhitelistedUsers := [] |}.

(** The body of the first loop of [loadSettings]: the [switch k]. *)
Definition loadSettings_row (ret : settings) (kv : string * string) : option settings :=
  let '(k, v) := kv in
  if decide (k = "ServiceName") then Some (set_ServiceName ret v)
  else if decide (k = "ClientLimit") then
    tmp ← Go.ParseInt v; Some (set_ClientLimit ret tmp)
  else if decide (k = "IssuedCertDuration") then
    tmp ← Go.ParseInt v; Some (set_IssuedCertDuration ret tmp)
  else if decide (k = "WhitelistedDomains") then
    Some (set_WhitelistedDomains ret
            (Go.sort_Strings
               (WhitelistedDomains ret ++ filter (λ d, d ≠ "") (Go.Split v " "))))
  else Some ret.

Definition loadSettings_rows (rows : list (string * string)) : option settings :=
  foldl (λ acc kv, ret ← acc; loadSettings_row ret kv) (Some default_settings) rows.

Definition loadSettings : M settings :=
  rows ← Query Sql.select_settings;
  ret ← must (loadSettings_rows rows);
  emails ← Query Sql.select_whitelist;
  mret (set_WhitelistedUsers ret
          (WhitelistedUsers ret ++ filter (λ email, email ≠ "") emails)).

Definition storeSettings (s : settings) : M () :=
  writeDatabaseByQuery (Sql.replace_setting now "ServiceName" (ServiceName s));;
  writeDatabaseByQuery
    (Sql.replace_setting now "IssuedCertDuration" (Go.FormatInt (IssuedCertDuration s)));;
  writeDatabaseByQuery
    (Sql.replace_setting now "ClientLimit" (Go.FormatInt (ClientLimit s)));;
  writeDatabaseByQuery
    (Sql.replace_setting now "WhitelistedDomains" (Go.Join (WhitelistedDomains s) " ")).

Definition makeCertSerial : M string :=
  let ceiling := N.shiftl 1 128 in
  newSerial ← must (rand_Int W ceiling);
  mret (Go.Sprintf_x newSerial).

(** [rows.Scan(&c.Fingerprint, &c.Created, &c.Expires, &c.Description,
    &c.Revoked)] into a fresh [cert]: [revoked] is the last column, so a null
    there leaves the other fields filled. *)
Definition scan_cert (r : certs_row) : cert :=
  {| Fingerprint := c_fingerprint r; Created := Some (c_created r);
     Expires := Some (c_expires r); Revoked := c_revoked r;
     Description := c_desc r |}.

(** [rows.Scan(..., &c.Fingerprint, &c.Created, &c.Expires, &c.Revoked,
    &c.Description)] of [GET /certs]: [revoked] comes before [desc], so a
    null there stops the scan and the description stays empty. *)
Definition scan_cert_revoked_first (r : certs_row) : cert :=
  {| Fingerprint := c_fingerprint r; Created := Some (c_created r);
     Expires := Some (c_expires r); Revoked := c_revoked r;
     Description := match c_revoked r with Some _ => c_desc r | None => "" end |}.

(** The zero value [cert{}] *)
Definition zero_cert : cert :=
  {| Fingerprint := ""; Created := None; Expires := None; Revoked := None;
     Description := "" |}.

Definition by_Description : relation cert :=
  λ x y, (Description x ≤ Description y)%string.
#[global] Instance by_Description_dec : RelDecision by_Description.
Proof. intros x y. unfold by_Description. apply _. Defined.

Definition by_Email : relation user :=
  λ x y, (Email x ≤ Email y)%string.
#[global] Instance by_Email_dec : RelDecision by_Email.
Proof. intros x y. unfold by_Email. apply _. Defined.

Definition by_Timestamp_desc : relation event :=
  λ x y, Timestamp y ≤ Timestamp x.
#[global] Instance by_Timestamp_desc_dec : RelDecision by_Timestamp_desc.
Proof. intros x y. unfold by_Timestamp_desc. apply _. Defined.

(** *** [/user/<email>] *)

Definition userHandler (req : Request) : M Response :=
  let email := extractSegment (Path req) 2 in
  if decide (email = "") then SendJSON StatusBadRequest J_empty
  else if decide (Method req = "GET") then
    rows ← Query (Sql.select_totp_created email);
    match rows with
    | [] => SendJSON StatusNotFound J_empty
    | created :: _ :: _ => SendJSON StatusInternalServerError J_empty
    | [created] =>
        rows ← Query (Sql.select_certs_by_email email);
        let cs := scan_cert <$> rows in
        let active := filter (λ c, Revoked c = None) cs in
        let revoked := filter (λ c, Revoked c ≠ None) cs in
        SendJSON StatusOK
          (J_user {| Email := email; user_Created := Some created;
                     ActiveCerts := Go.sort_Slice by_Description active;
                     RevokedCerts := Go.sort_Slice by_Description revoked |})
    end
  else if decide (Method req = "PUT") then
    settings ← loadSettings;
    key ← must (totp_Generate W (ServiceName settings) email);
    (* three arguments for two placeholders: the driver binds the first
       two and leaves the third unused *)
    writeDatabaseByQuery (Sql.replace_totp now email (Secret key));;
    writeDatabaseByQuery (Sql.insert_event now "TOTP set" email "");;
    img ← must (Image key);
    let imageURL := "data:image/png;base64," +:+ base64_EncodeToString W img in
    SendJSON StatusOK (J_TOTP email imageURL)
  else if decide (Method req = "DELETE") then
    fps ← Query (Sql.select_fingerprints email);
    (if decide (0 < length fps)%nat
     then writeDatabaseByQuery (Sql.revoke_by_email now email)
     else mret ());;
    writeDatabaseByQuery (Sql.delete_totp email);;
    writeDatabaseByQuery
      (Sql.insert_event now "user deleted" email
         (Go.FormatInt (Z.of_nat (length fps)) +:+ " certs revoked"));;
    SendJSON StatusOK (J_RevokedCerts fps)
  else panic.

(** *** [/certs] and [/certs/<email>] *)

Definition append_ActiveCerts (u : user) (c : cert) : user :=
  {| Email := Email u; user_Created := user_Created u;
     ActiveCerts := ActiveCerts u ++ [c]; RevokedCerts := RevokedCerts u |}.
Definition append_RevokedCerts (u : user) (c : cert) : user :=
  {| Email := Email u; user_Created := user_Created u;
     ActiveCerts := ActiveCerts u; RevokedCerts := RevokedCerts u ++ [c] |}.
Definition sort_user (u : user) : user :=
  {| Email := Email u; user_Created := user_Created u;
     ActiveCerts := Go.sort_Slice by_Description (ActiveCerts u);
     RevokedCerts := Go.sort_Slice by_Description (RevokedCerts u) |}.

(** One turn of the row loop of [GET /certs].  [users] is the
    [map[string]*user]; a [*user] is [None] for nil and otherwise names the
    map entry that holds the object.  [None] as a result is the run-time
    panic of dereferencing nil. *)
Definition certs_all_row (users : gmap string user) (row : totp_row * certs_row)
  : option (gmap string user) :=
  let email := t_email row.1 in
  let created := Some (t_created row.1) in
  let c := scan_cert_revoked_first row.2 in
  (* [var u *user] *)
  let u : option string := None in
  (* [if u, ok := users[email]; !ok { u = &user{...}; users[email] = u; ... }]:
     the [:=] declares a second [u] whose scope is the [if] statement; the
     assignments in its block go to that one *)
  let users :=
    match users !! email with
    | Some _ => users
    | None => <[email := {| Email := email; user_Created := created;
                            ActiveCerts := []; RevokedCerts := [] |}]> users
    end in
  (* [u.ActiveCerts = append(u.ActiveCerts, c)] and its [else]: the first [u] *)
  p ← u;
  target ← users !! p;
  if decide (Revoked c ≠ None)
  then Some (<[p := append_ActiveCerts target c]> users)
  else Some (<[p := append_RevokedCerts target c]> users).

Definition certs_all_rows (rows : list (totp_row * certs_row))
  : option (gmap string user) :=
  foldl (λ acc row, users ← acc; certs_all_row users row) (Some ∅) rows.

(** The state of the row loop of [GET /certs/<email>]: [res.Created] and the
    two slices. *)
Definition certs_one_row (res : user) (row : totp_row * option certs_row) : user :=
  let res := {| Email := Email res; user_Created := Some (t_created row.1);
                ActiveCerts := ActiveCerts res; RevokedCerts := RevokedCerts res |} in
  let c := match row.2 with Some r => scan_cert r | None => zero_cert end in
  if decide (Fingerprint c = "") then res
  else if decide (Revoked c = None) then append_ActiveCerts res c
  else append_RevokedCerts res c.

Definition certsHandler (req : Request) : M Response :=
  let email := extractSegment (Path req) 2 in
  if decide (Method req = "GET") then
    if decide (email = "") then
      rows ← Query Sql.select_totp_join_certs;
      users ← must (certs_all_rows rows);
      let Certs := sort_user <$> (map_to_list users).*2 in
      SendJSON StatusOK (J_Certs (Go.sort_Slice by_Email Certs))
    else
      rows ← Query (Sql.select_totp_left_join_certs email);
      let res := foldl certs_one_row
                   {| Email := email; user_Created := None;
                      ActiveCerts := []; RevokedCerts := [] |} rows in
      if decide (user_Created res = None) then SendJSON StatusNotFound J_empty
      else SendJSON StatusOK (J_user (sort_user res))
  else if decide (Method req = "POST") then
    if decide (email = "") then SendJSON StatusBadRequest J_empty
    else match PopulateFromBody req with
    | None => SendJSON StatusBadRequest J_empty
    | Some reqBody =>
    if decide (email ≠ body_Email reqBody) then SendJSON StatusBadRequest J_empty
    else if decide (body_Description reqBody = "") then SendJSON StatusBadRequest J_empty
    else
      rows ← Query (Sql.select_totp_email email);
      match rows with
      | [] => SendJSON StatusNotFound J_empty
      | _ :: _ :: _ => panic
      | [_] =>
          hex ← makeCertSerial;
          serial ← must (Go.SetString16 hex);
          authority ← must (ca_LoadFromPEM W);
          s ← loadSettings;
          let subject := {| Organization := [ServiceName s]; CommonName := email |} in
          kp ← must (CreateClientKeypair authority (IssuedCertDuration s) subject serial 4096);
          fp ← must (CertFingerprint kp);
          pem ← must (ToPEM kp);
          tlsauth ← must (ReadFile_TLSAuth W);
          let cacrt := ExportCertChain authority in
          t ← must (template_ParseFiles W);
          ovpn ← must (t {| tpl_CA := cacrt; tpl_Cert := pem.1;
                            tpl_Key := pem.2; tpl_TLSAuth := tlsauth |});
          writeDatabaseByQuery
            (Sql.insert_cert now email fp (body_Description reqBody)
               (sqlite_date W now (IssuedCertDuration s)));;
          writeDatabaseByQuery
            (Sql.insert_event now "certificate issued" email
               (fp +:+ " - " +:+ body_Description reqBody));;
          let dataURL := "data:image/ovpn;base64," +:+ base64_EncodeToString W ovpn in
          SendJSON StatusCreated (J_OVPN dataURL)
      end
    end
  else panic.

(** *** [/cert/<fingerprint>] *)

Definition certHandler (req : Request) : M Response :=
  let fp := extractSegment (Path req) 2 in
  if decide (fp = "") then SendJSON StatusBadRequest J_empty
  else if decide (Method req = "GET") then
    rows ← Query (Sql.select_cert fp);
    match rows with
    | [] => SendJSON StatusNotFound J_empty
    | _ :: _ :: _ => SendJSON StatusInternalServerError J_empty
    | [r] => SendJSON StatusOK (J_cert (c_email r) (scan_cert_revoked_first r))
    end
  else if decide (Method req = "DELETE") then
    rows ← Query (Sql.select_cert_email fp);
    match rows with
    | [] => SendJSON StatusOK J_empty
    | email :: _ =>
        writeDatabaseByQuery (Sql.revoke_by_fingerprint now fp);;
        writeDatabaseByQuery (Sql.insert_event now "certificate revoked" email fp);;
        SendJSON StatusOK J_empty
    end
  else panic.

(** *** [/events] *)

Definition scan_event (r : events_row) : event :=
  {| Event := e_event r; event_Email := e_email r; Value := e_value r;
     Timestamp := e_ts r |}.

(** The part of [eventsHandler] after the query has been chosen: read the
    rows, sort, send, and clear the table when the method is [DELETE]. *)
Definition events_respond (req : Request) (q : DB → list events_row) : M Response :=
  rows ← Query q;
  let events := Go.sort_Slice by_Timestamp_desc (scan_event <$> rows) in
  resp ← SendJSON StatusOK (J_Events events);
  if decide (Method req = "DELETE") then
    writeDatabaseByQuery Sql.delete_events;;
    writeDatabaseByQuery
      (Sql.insert_event now "events log reset" ""
         (Go.FormatInt (Z.of_nat (length events)) +:+ " events cleared"));;
    mret resp
  else mret resp.

Definition eventsHandler (req : Request) : M Response :=
  before ← must (ParseForm req);
  if decide (before = "") then events_respond req Sql.select_events
  else if decide (before = "all") then events_respond req Sql.select_events_all
  else match time_Parse W before with
       | None => SendJSON StatusBadRequest J_empty
       | Some t => events_respond req (Sql.select_events_before t)
       end.

(** *** [/whitelist] and [/whitelist/<email>] *)

Definition whitelistHandler (req : Request) : M Response :=
  let email := extractSegment (Path req) 2 in
  if decide (Method req = "GET") then
    if decide (email ≠ "") then SendJSON StatusBadRequest J_empty
    else
      emails ← Query Sql.select_whitelist;
      SendJSON StatusOK (J_Users emails)
  else if decide (Method req = "PUT") then
    if decide (email = "") then SendJSON StatusBadRequest J_empty
    else
      writeDatabaseByQuery (Sql.replace_whitelist now email);;
      s ← loadSettings;
      SendJSON StatusOK (J_Users (WhitelistedUsers s))
  else if decide (Method req = "DELETE") then
    if decide (email = "") then SendJSON StatusBadRequest J_empty
    else
      writeDatabaseByQuery (Sql.delete_whitelist email);;
      s ← loadSettings;
      SendJSON StatusOK (J_Users (WhitelistedUsers s))
  else panic.

End handlers.

(** ** Vocabulary of the statements *)

(** [c] occurs in [s] *)
Fixpoint has_byte (c : ascii) (s : string) : bool :=
  match s with
  | EmptyString => false
  | String a s' => if decide (a = c) then true else has_byte c s'
  end.

(** A word of a space-delimited value: not empty, no space inside *)
Definition token (d : string) : Prop := d ≠ "" ∧ has_byte " " d = false.

(** The range of [strconv.ParseInt(_, 10, 32)] *)
Definition int32 (z : Z) : Prop := -2147483648 ≤ z < 2147483648.

(** The keys that [storeSettings] writes, and the rows it writes for them *)
Definition stored_keys : list string :=
  ["ServiceName"; "IssuedCertDuration"; "ClientLimit"; "WhitelistedDomains"].

Definition stored_rows (now : Time) (s : settings) : list settings_row :=
  [ {| s_key := "ServiceName"; s_value := ServiceName s; s_modified := now |};
    {| s_key := "IssuedCertDuration"; s_value := Go.FormatInt (IssuedCertDuration s);
       s_modified := now |};
    {| s_key := "ClientLimit"; s_value := Go.FormatInt (ClientLimit s);
       s_modified := now |};
    {| s_key := "WhitelistedDomains"; s_value := Go.Join (WhitelistedDomains s) " ";
       s_modified := now |} ].

(** The membership of the whitelist as [loadSettings] reads it *)
Definition live_whitelist (db : DB) : list string :=
  filter (λ email, email ≠ "") (Sql.select_whitelist db).

(** ** Concrete inputs *)

Module Sample.

Definition empty_db : DB :=
  {| certs := []; totp := []; events := []; settings_table := []; whitelist := [] |}.

Definition vpn_settings : settings :=
  {| ServiceName := "Office VPN"; ClientLimit := 3; IssuedCertDuration := 30;
     WhitelistedDomains := ["example.com"; "example.org"];
     WhitelistedUsers := ["nobody@example.com"] |}.

Definition whitelisted_db : DB :=
  {| certs := []; totp := []; events := [];
     settings_table := [ {| s_key := "ClientLimit"; s_value := "7"; s_modified := 1 |};
                         {| s_key := "Motd"; s_value := "hello"; s_modified := 2 |} ];
     whitelist := [ {| w_email := "bob@example.com"; w_modified := 3 |};
                    {| w_email := "alice@example.com"; w_modified := 4 |} ] |}.

(** A limit that fits Go's 64-bit [int] but not 32 bits *)
Definition wide_limit_settings : settings :=
  {| ServiceName := "Office VPN"; ClientLimit := 2147483648; IssuedCertDuration := 30;
     WhitelistedDomains := ["example.com"]; WhitelistedUsers := [] |}.

(** A domain entry with a space inside *)
Definition spaced_domain_settings : settings :=
  {| ServiceName := "Office VPN"; ClientLimit := 3; IssuedCertDuration := 30;
     WhitelistedDomains := ["example.com example.org"]; WhitelistedUsers := [] |}.

(** Collaborators that all succeed *)
Definition W0 : World :=
  {| time_Parse := λ s, if decide (s = "2018-06-01T00:00:00Z") then Some 1000 else None;
     sqlite_date := λ now d, Some (86400 * (now `div` 86400 + d));
     totp_Generate := λ issuer account,
       if decide (issuer = "") then None
       else if decide (account = "") then None
       else Some {| Secret := "SEED-" +:+ account; Image := Some "png" |};
     base64_EncodeToString := λ s, s;
     rand_Int := λ _, Some 255%N;
     ca_LoadFromPEM :=
       Some {| CreateClientKeypair := λ _ _ _ _,
                 Some {| CertFingerprint := Some "f9"; ToPEM := Some ("crt", "key") |};
               ExportCertChain := "chain" |};
     ReadFile_TLSAuth := Some "ta";
     template_ParseFiles := Some (λ d, Some (tpl_CA d +:+ tpl_Cert d)) |}.

Definition request (method path : string) : Request :=
  {| Method := method; Path := path; ParseForm := Some ""; PopulateFromBody := None |}.

(** alice is enrolled and has one active and one revoked certificate *)
Definition alice_db : DB :=
  {| certs := [ {| c_email := "alice@example.com"; c_fingerprint := "f1";
                   c_desc := "laptop"; c_created := 10; c_expires := 100;
                   c_revoked := None |};
                {| c_email := "alice@example.com"; c_fingerprint := "f2";
                   c_desc := "phone"; c_created := 11; c_expires := 100;
                   c_revoked := Some 50 |} ];
     totp := [ {| t_email := "alice@example.com"; t_seed := "s"; t_created := 5;
                  t_updated := 5 |} ];
     events := []; settings_table := []; whitelist := [] |}.

(** alice has been removed; her certificate row is still there *)
Definition orphan_db : DB :=
  {| certs := [ {| c_email := "alice@example.com"; c_fingerprint := "f1";
                   c_desc := "laptop"; c_created := 10; c_expires := 100;
                   c_revoked := Some 60 |} ];
     totp := []; events := []; settings_table := []; whitelist := [] |}.

(** a stored limit that is not a 32-bit decimal number *)
Definition bad_limit_db : DB :=
  {| certs := []; totp := []; events := [];
     settings_table := [ {| s_key := "ClientLimit"; s_value := "4294967296";
                            s_modified := 1 |} ];
     whitelist := [] |}.

(** twenty-six events, one per second *)
Definition busy_db : DB :=
  {| certs := []; totp := [];
     events := (λ i, {| e_event := "TOTP set"; e_email := "alice@example.com";
                        e_value := ""; e_ts := Z.of_nat i |}) <$> seq 1 26;
     settings_table := []; whitelist := [] |}.

Definition events_request (method before : string) : Request :=
  {| Method := method; Path := "/events"; ParseForm := Some before;
     PopulateFromBody := None |}.

Definition issue_request (email description : string) : Request :=
  {| Method := "POST"; Path := "/certs/" +:+ email; ParseForm := Some "";
     PopulateFromBody := Some {| body_Email := email;
                                 body_Description := description |} |}.

End Sample.

(** ** Databases that the statements name *)

(** The database after [DELETE /user/<email>] at [now] *)
Definition removed (now : Time) (email : string) (db : DB) : DB :=
  {| certs := (λ r, if decide (c_email r = email) then Sql.revoke_row now r else r)
                <$> certs db;
     totp := filter (λ r, t_email r ≠ email) (totp db);
     events := events db
               ++ [{| e_event := "user deleted"; e_email := email;
                      e_value := Go.FormatInt
                                   (Z.of_nat (length (Sql.select_fingerprints email db)))
                                 +:+ " certs revoked";
                      e_ts := now |}];
     settings_table := settings_table db;
     whitelist := whitelist db |}.

(** The database after a successful [PUT /user/<email>] at [now] *)
Definition enrolled (now : Time) (email seed : string) (db : DB) : DB :=
  {| certs := certs db;
     totp := filter (λ r, t_email r ≠ email) (totp db)
             ++ [{| t_email := email; t_seed := seed; t_created := now;
                    t_updated := now |}];
     events := events db
               ++ [{| e_event := "TOTP set"; e_email := email; e_value := "";
                      e_ts := now |}];
     settings_table := settings_table db;
     whitelist := whitelist db |}.

(** Every stored ClientLimit and IssuedCertDuration is a 32-bit decimal
    number *)
Definition numeric_settings_ok (db : DB) : Prop :=
  Forall (λ r, s_key r ∈ ["ClientLimit"; "IssuedCertDuration"] →
               is_Some (Go.ParseInt (s_value r)))
         (settings_table db).

(** The audit row of a revocation *)
Definition revoked_event (now : Time) (email fp : string) : events_row :=
  {| e_event := "certificate revoked"; e_email := email; e_value := fp; e_ts := now |}.

(** The database after [DELETE /cert/<fp>] at [now], for a known [fp] *)
Definition revoked_db (now : Time) (fp email : string) (db : DB) : DB :=
  {| certs := (λ r, if decide (c_fingerprint r = fp) then Sql.revoke_row now r else r)
                <$> certs db;
     totp := totp db;
     events := events db ++ [revoked_event now email fp];
     settings_table := settings_table db;
     whitelist := whitelist db |}.

(** The Go side of a listing: the scanned rows, sorted again *)
Definition listing (rows : list events_row) : list event :=
  Go.sort_Slice by_Timestamp_desc (scan_event <$> rows).

(** The events of a listing come newest first *)
Definition newest_first (L : list event) : Prop :=
  StronglySorted by_Timestamp_desc L.


(** The audit row that [DELETE /events] leaves behind *)
Definition reset_event (now : Time) (listed : nat) : events_row :=
  {| e_event := "events log reset"; e_email := "";
     e_value := Go.FormatInt (Z.of_nat listed) +:+ " events cleared"; e_ts := now |}.

(** The ledger row and the audit row of an issuance *)
Definition issued_cert (now : Time) (email fp desc : string) (expires : Time)
  : certs_row :=
  {| c_email := email; c_fingerprint := fp; c_desc := desc; c_created := now;
     c_expires := expires; c_revoked := None |}.

Definition issued_event (now : Time) (email fp desc : string) : events_row :=
  {| e_event := "certificate issued"; e_email := email;
     e_value := fp +:+ " - " +:+ desc; e_ts := now |}.

(** ** The remaining handlers *)

(** The local [type user struct] of [usersHandler] *)
Record user_count := {
  uc_Email : string;
  uc_ActiveCerts : Z;
  uc_RevokedCerts : Z
}.

Definition by_uc_Email : relation user_count :=
  λ x y, (uc_Email x ≤ uc_Email y)%string.
#[global] Instance by_uc_Email_dec : RelDecision by_uc_Email.
Proof. intros x y. unfold by_uc_Email. apply _. Defined.

(** [count(distinct x)] over the non-null values [xs] of a group *)
Definition count_distinct (xs : list string) : Z :=
  Z.of_nat (length (remove_dups xs)).

(** [select t.email, count(distinct c.fingerprint), count(distinct
    c2.fingerprint) from totp as t left join certs as c on t.email=c.email
    and c.revoked is null left join certs as c2 on t.email=c2.email and
    c2.revoked is not null group by t.email]: one row per email of [totp];
    the left joins put every matching [c] and every matching [c2] into the
    group at least once.  The groups are given in the order in which their
    email first occurs; the handler sorts them. *)
Definition select_user_counts (db : DB) : list (string * Z * Z) :=
  (λ email,
     (email,
      count_distinct
        (c_fingerprint
           <$> filter (λ c, c_email c = email ∧ c_revoked c = None) (certs db)),
      count_distinct
        (c_fingerprint
           <$> filter (λ c, c_email c = email ∧ c_revoked c ≠ None) (certs db))))
  <$> remove_dups (t_email <$> totp db).

(** [httputil.SendJSON] with the object kept at its own type, for the
    handlers whose objects are not among [Json]; the pair is the status and
    the object. *)
Definition SendJSON_of {B} (st : Z) (object : B) : M (Z * B) :=
  mret (st, object).

(** [usersHandler]: [GET /users] *)
Definition usersHandler (req : Request) : M (Z * list user_count) :=
  rows ← Query select_user_counts;
  let users :=
    (λ row, {| uc_Email := row.1.1; uc_ActiveCerts := row.1.2;
               uc_RevokedCerts := row.2 |}) <$> rows in
  SendJSON_of StatusOK (Go.sort_Slice by_uc_Email users).

(** A request to [/settings]: the method, and what
    [httputil.PopulateFromBody(&s, req)] leaves in [s] together with whether
    it returned an error. *)
Record settings_request := {
  sr_Method : string;
  sr_s : settings;
  sr_err : bool
}.

(** [settingsHandler].  The result lists the [SendJSON] calls in order, each
    with its status and, when the object is a settings value, that value
    ([None] for [struct{}{}]): after a body that does not decode the handler
    sends 400 and goes on. *)
Definition settingsHandler (now : Time) (req : settings_request)
  : M (list (Z * option settings)) :=
  if decide (sr_Method req = "GET") then
    s ← loadSettings;
    mret [(StatusOK, Some s)]
  else if decide (sr_Method req = "PUT") then
    let s := sr_s req in
    let sent := if sr_err req then [(StatusBadRequest, None)] else [] in
    storeSettings now s;;
    loaded ← loadSettings;
    mret (sent ++ [(StatusOK, Some loaded)])
  else panic.

(** ** More vocabulary *)

(** The database in which a piece of handler code ends, returning or
    panicking *)
Definition final_db {A} (r : Res A) : DB :=
  match r with
  | Ok _ db => db
  | Panics db => db
  end.

(** Running [m] never removes or changes an audit event: the log it starts
    from is a prefix of the log it ends with. *)
Definition keeps_audit_log {A} (m : M A) : Prop :=
  ∀ db, events db `prefix_of` events (final_db (m db)).

Definition slash_free (s : string) : Prop := has_byte "/" s = false.

(** The database after [PUT /whitelist/<email>] and after [DELETE
    /whitelist/<email>] *)
Definition whitelisted (now : Time) (email : string) (db : DB) : DB :=
  set_whitelist db (filter (λ r, w_email r ≠ email) (whitelist db)
                    ++ [{| w_email := email; w_modified := now |}]).

Definition unlisted (email : string) (db : DB) : DB :=
  set_whitelist db (filter (λ r, w_email r ≠ email) (whitelist db)).

(** The certificates of an email as [GET /user/<email>] reads them *)
Definition scanned_certs (email : string) (db : DB) : list cert :=
  scan_cert <$> Sql.select_certs_by_email email db.

(** The object of [GET /user/<email>] and [GET /certs/<email>] for an
    identity created at [created] *)
Definition described (email : string) (created : Time) (db : DB) : user :=
  {| Email := email; user_Created := Some created;
     ActiveCerts := Go.sort_Slice by_Description
                      (filter (λ c, Revoked c = None) (scanned_certs email db));
     RevokedCerts := Go.sort_Slice by_Description
                       (filter (λ c, Revoked c ≠ None) (scanned_certs email db)) |}.

(** ** More concrete inputs *)

Module Sample2.

(** Collaborators as in [Sample.W0], with a clock format that reads one
    value, as the instant 2 *)
Definition W1 : World :=
  {| time_Parse := λ s, if decide (s = "1970-01-01T00:00:02Z") then Some 2 else None;
     sqlite_date := sqlite_date Sample.W0;
     totp_Generate := totp_Generate Sample.W0;
     base64_EncodeToString := base64_EncodeToString Sample.W0;
     rand_Int := rand_Int Sample.W0;
     ca_LoadFromPEM := ca_LoadFromPEM Sample.W0;
     ReadFile_TLSAuth := ReadFile_TLSAuth Sample.W0;
     template_ParseFiles := template_ParseFiles Sample.W0 |}.

End Sample2.

(** ** Facts about the Go library model *)

Section go_facts.

Lemma append_cons a s t : String a s +:+ t = String a (s +:+ t).
Proof. reflexivity. Qed.

Lemma Split_no_sep d c : has_byte c d = false → Go.Split d c = [d].
Proof.
  induction d as [|a d IH]; simpl; [done|].
  destruct (decide (a = c)); [done|]. intros H. by rewrite IH.
Qed.

Lemma Split_app_sep d c rest :
  has_byte c d = false →
  Go.Split (d +:+ String c rest) c = d :: Go.Split rest c.
Proof.
  induction d as [|a d IH]; intros H.
  - unfold String.app; simpl. by rewrite decide_True.
  - rewrite append_cons. simpl in *.
    destruct (decide (a = c)); [done|]. by rewrite IH.
Qed.

Lemma Split_Join ds :
  Forall token ds →
  filter (λ d, d ≠ "") (Go.Split (Go.Join ds " ") " ") = ds.
Proof.
  induction 1 as [|d ds [Hne Hsp] Hds IH]; [done|].
  destruct ds as [|d' ds].
  - simpl. rewrite Split_no_sep by done. by rewrite filter_cons_True, filter_nil.
  - change (Go.Join (d :: d' :: ds) " ") with (d +:+ String " " (Go.Join (d' :: ds) " ")).
    rewrite Split_app_sep by done. rewrite filter_cons_True by done. by rewrite IH.
Qed.

Lemma sort_Strings_sorted l : Sorted String.le l → Go.sort_Strings l = l.
Proof.
  intros Hl. unfold Go.sort_Strings, Go.sort_Slice.
  apply (Sorted_unique String.le); [apply Sorted_merge_sort; apply _|done|].
  apply merge_sort_Permutation.
Qed.

Lemma string_of_uint_head d :
  d ≠ Decimal.Nil →
  ∃ c rest, DecimalString.NilEmpty.string_of_uint d = String c rest
            ∧ c ≠ "+"%char ∧ c ≠ "-"%char.
Proof. destruct d; [done|..]; intros _; simpl; eexists _, _; (split; [done|done]). Qed.

Lemma to_uint_nonnil n : N.to_uint n ≠ Decimal.Nil.
Proof. destruct n; simpl; [done|]. apply DecimalPos.Unsigned.to_uint_nonnil. Qed.

Lemma ParseUint_FormatUint n : Go.ParseUint (Go.FormatUint n) = Some n.
Proof.
  unfold Go.ParseUint, Go.FormatUint.
  destruct (string_of_uint_head _ (to_uint_nonnil n)) as (c & rest & E & _).
  rewrite <- (DecimalN.Unsigned.of_to n) at 2.
  pose proof (DecimalString.NilEmpty.usu (N.to_uint n)) as U.
  rewrite E in *. by rewrite U.
Qed.

Lemma ParseInt_FormatInt z : int32 z → Go.ParseInt (Go.FormatInt z) = Some z.
Proof.
  intros [Hlo Hhi]. unfold Go.FormatInt. destruct (decide (z < 0)) as [Hneg|Hpos].
  - unfold Go.ParseInt. rewrite decide_False by done. rewrite decide_True by done.
    rewrite ParseUint_FormatUint. simpl.
    rewrite decide_False by lia. f_equal. lia.
  - pose proof (ParseUint_FormatUint (Z.to_N z)) as P.
    unfold Go.ParseInt.
    destruct (string_of_uint_head _ (to_uint_nonnil (Z.to_N z))) as (c & rest & E & H1 & H2).
    unfold Go.FormatUint in *. rewrite E in *.
    rewrite decide_False by done. rewrite decide_False by done.
    rewrite P. simpl. rewrite decide_False by lia. f_equal. lia.
Qed.

End go_facts.

(** ** Settings: [storeSettings] followed by [loadSettings] *)

Lemma option_bind_Some_l {A B} (f : A → option B) (a : A) : Some a ≫= f = f a.
Proof. reflexivity. Qed.

Section settings_facts.
Context (now : Time).

Lemma storeSettings_run s db :
  storeSettings now s db =
  Ok () (set_settings_table db
           (filter (λ r, s_key r ∉ stored_keys) (settings_table db) ++ stored_rows now s)).
Proof.
  unfold storeSettings, writeDatabaseByQuery, Sql.replace_setting, mbind, M_bind; cbn.
  f_equal. unfold set_settings_table; cbn. f_equal. unfold stored_rows.
  rewrite !filter_app, !filter_cons, !filter_nil; cbn.
  rewrite <- !app_assoc; cbn. f_equal.
  rewrite !list_filter_filter. apply list_filter_iff. intros r.
  unfold stored_keys. rewrite !not_elem_of_cons, elem_of_nil. tauto.
Qed.

Lemma loadSettings_rows_app rows1 rows2 :
  loadSettings_rows (rows1 ++ rows2) =
  foldl (λ acc kv, ret ← acc; loadSettings_row ret kv) (loadSettings_rows rows1) rows2.
Proof. unfold loadSettings_rows. apply foldl_app. Qed.

Lemma loadSettings_rows_other rows :
  Forall (λ kv, kv.1 ∉ stored_keys) rows →
  loadSettings_rows rows = Some default_settings.
Proof.
  unfold loadSettings_rows. generalize default_settings.
  intros s0 H. revert s0.
  induction H as [|[k v] rows Hk _ IH]; intros s0; [done|].
  cbn [foldl]. replace (Some s0 ≫= _) with (Some s0); [apply IH|].
  unfold stored_keys in Hk. rewrite !not_elem_of_cons in Hk.
  destruct Hk as (? & ? & ? & ? & _). cbn. unfold loadSettings_row.
  by rewrite !decide_False by done.
Qed.

Lemma loadSettings_row_ServiceName ret v :
  loadSettings_row ret ("ServiceName", v) = Some (set_ServiceName ret v).
Proof. unfold loadSettings_row. by rewrite decide_True. Qed.

Lemma loadSettings_row_ClientLimit ret v :
  loadSettings_row ret ("ClientLimit", v) =
  tmp ← Go.ParseInt v; Some (set_ClientLimit ret tmp).
Proof.
  unfold loadSettings_row. rewrite decide_False by done. by rewrite decide_True.
Qed.

Lemma loadSettings_row_IssuedCertDuration ret v :
  loadSettings_row ret ("IssuedCertDuration", v) =
  tmp ← Go.ParseInt v; Some (set_IssuedCertDuration ret tmp).
Proof.
  unfold loadSettings_row. rewrite !decide_False by done. by rewrite decide_True.
Qed.

Lemma loadSettings_row_WhitelistedDomains ret v :
  loadSettings_row ret ("WhitelistedDomains", v) =
  Some (set_WhitelistedDomains ret
          (Go.sort_Strings
             (WhitelistedDomains ret ++ filter (λ d, d ≠ "") (Go.Split v " ")))).
Proof.
  unfold loadSettings_row. rewrite !decide_False by done. by rewrite decide_True.
Qed.

Lemma loadSettings_stored s db :
  int32 (ClientLimit s) → int32 (IssuedCertDuration s) →
  Forall token (WhitelistedDomains s) →
  Sorted String.le (WhitelistedDomains s) →
  loadSettings_rows
    (Sql.select_settings
       (set_settings_table db
          (filter (λ r, s_key r ∉ stored_keys) (settings_table db) ++ stored_rows now s)))
  = Some (set_WhitelistedUsers s []).
Proof.
  intros HC HD Htok Hsort. unfold Sql.select_settings; cbn [settings_table set_settings_table].
  rewrite fmap_app, loadSettings_rows_app, loadSettings_rows_other.
  2:{ apply Forall_fmap, Forall_forall. intros r [Hr _]%list_elem_of_filter. exact Hr. }
  cbn [fmap list_fmap stored_rows foldl s_key s_value].
  rewrite option_bind_Some_l, loadSettings_row_ServiceName.
  rewrite option_bind_Some_l, loadSettings_row_IssuedCertDuration.
  rewrite ParseInt_FormatInt, !option_bind_Some_l by done.
  rewrite loadSettings_row_ClientLimit.
  rewrite ParseInt_FormatInt, !option_bind_Some_l by done.
  rewrite loadSettings_row_WhitelistedDomains.
  cbn [WhitelistedDomains set_ClientLimit set_IssuedCertDuration set_ServiceName
       default_settings app].
  rewrite Split_Join by done. rewrite sort_Strings_sorted by done.
  by destruct s.
Qed.

(** C7 (as the code has it): [loadSettings] right after [storeSettings s]
    gives back [s] in ServiceName, ClientLimit, IssuedCertDuration and
    WhitelistedDomains, with WhitelistedUsers read from the whitelist table,
    whenever the domain list of [s] is sorted and made of non-empty words
    without a space and the two numbers fit 32 bits; [storeSettings] leaves
    the whitelist table and any WhitelistedUsers row of the settings table
    as they were. *)
Theorem storeSettings_loadSettings s db :
  Sorted String.le (WhitelistedDomains s) →
  Forall token (WhitelistedDomains s) →
  int32 (ClientLimit s) →
  int32 (IssuedCertDuration s) →
  ∃ db',
    storeSettings now s db = Ok () db'
    ∧ loadSettings db' = Ok (set_WhitelistedUsers s (live_whitelist db)) db'
    ∧ whitelist db' = whitelist db
    ∧ filter (λ r, s_key r = "WhitelistedUsers") (settings_table db')
      = filter (λ r, s_key r = "WhitelistedUsers") (settings_table db).
Proof.
  intros Hsort Htok HC HD. eexists. split; [apply storeSettings_run|].
  split; [|split].
  - unfold loadSettings, Query, mbind, M_bind.
    rewrite loadSettings_stored by done. reflexivity.
  - reflexivity.
  - cbn [settings_table set_settings_table].
    rewrite filter_app, list_filter_filter.
    replace (filter _ (stored_rows now s)) with (@nil settings_row).
    + rewrite app_nil_r. apply list_filter_iff. intros r. split; [tauto|].
      intros E. split; [done|]. rewrite E. unfold stored_keys.
      rewrite !not_elem_of_cons, elem_of_nil. naive_solver.
    + unfold stored_rows. by rewrite !filter_cons_False, filter_nil by done.
Qed.

End settings_facts.

Lemma storeSettings_loadSettings_witness :
  ∃ db',
    storeSettings 100 Sample.vpn_settings Sample.whitelisted_db = Ok () db'
    ∧ loadSettings db'
      = Ok (set_WhitelistedUsers Sample.vpn_settings
              ["alice@example.com"; "bob@example.com"]) db'
    ∧ whitelist db' = whitelist Sample.whitelisted_db
    ∧ filter (λ r, s_key r = "WhitelistedUsers") (settings_table db')
      = filter (λ r, s_key r = "WhitelistedUsers")
          (settings_table Sample.whitelisted_db).
Proof.
  apply (storeSettings_loadSettings 100 Sample.vpn_settings Sample.whitelisted_db).
  - vm_compute. repeat constructor.
  - repeat constructor; vm_compute; congruence.
  - unfold int32; simpl; lia.
  - unfold int32; simpl; lia.
Defined.

(** C7 as stated fails: a sorted domain list without empty entries does not
    guarantee the round trip.  A limit beyond 32 bits is stored but makes
    the next [loadSettings] panic, and a domain with a space inside comes
    back as two domains. *)
Lemma storeSettings_loadSettings_counterexample :
  (Sorted String.le (WhitelistedDomains Sample.wide_limit_settings)
   ∧ Forall (λ d, d ≠ "") (WhitelistedDomains Sample.wide_limit_settings)
   ∧ ∃ db', storeSettings 100 Sample.wide_limit_settings Sample.empty_db = Ok () db'
            ∧ loadSettings db' = Panics db')
  ∧ (Sorted String.le (WhitelistedDomains Sample.spaced_domain_settings)
     ∧ Forall (λ d, d ≠ "") (WhitelistedDomains Sample.spaced_domain_settings)
     ∧ ∃ db' s', storeSettings 100 Sample.spaced_domain_settings Sample.empty_db = Ok () db'
                 ∧ loadSettings db' = Ok s' db'
                 ∧ WhitelistedDomains s' = ["example.com"; "example.org"]
                 ∧ WhitelistedDomains s'
                   ≠ WhitelistedDomains Sample.spaced_domain_settings).
Proof.
  split.
  - split; [repeat constructor|]. split; [by repeat constructor|].
    eexists. split; [vm_compute; reflexivity|]. vm_compute. reflexivity.
  - split; [repeat constructor|]. split; [by repeat constructor|].
    eexists _, _. split; [vm_compute; reflexivity|].
    split; [vm_compute; reflexivity|]. split; [reflexivity|]. vm_compute. congruence.
Qed.


(** ** [/user/<email>] *)

Section user_facts.
Context (W : World).

Lemma revoke_by_email_absent now e (cs : list certs_row) :
  filter (λ r, c_email r = e) cs = [] →
  (λ r, if decide (c_email r = e) then Sql.revoke_row now r else r) <$> cs = cs.
Proof.
  induction cs as [|r cs IH]; [done|]. rewrite filter_cons. cbn [fmap list_fmap].
  destruct (decide (c_email r = e)); [done|]. intros H. f_equal. by apply IH.
Qed.

(** What [DELETE /user/<email>] does on any database *)
Lemma userHandler_DELETE_run now req db e :
  Method req = "DELETE" → extractSegment (Path req) 2 = e → e ≠ "" →
  userHandler W now req db =
  Ok {| status := StatusOK; body := J_RevokedCerts (Sql.select_fingerprints e db) |}
     (removed now e db).
Proof.
  intros HM HP He. unfold userHandler. rewrite HP, HM.
  rewrite decide_False by done. rewrite decide_False by done.
  rewrite decide_False by done. rewrite decide_True by done.
  unfold mbind, M_bind, Query, writeDatabaseByQuery, SendJSON, mret, M_ret.
  cbn beta iota.
  destruct (decide (0 < length (Sql.select_fingerprints e db))%nat) as [Hpos|Hzero].
  - reflexivity.
  - cbn. f_equal. unfold removed, set_events, set_totp, set_certs; cbn. f_equal.
    symmetry. apply revoke_by_email_absent.
    unfold Sql.select_fingerprints in Hzero.
    destruct (filter _ (certs db)); [done|]. cbn in Hzero. lia.
Qed.

Lemma length_filter_split {A} (P : A → Prop) `{!∀ x, Decision (P x)} (l : list A) :
  length l = (length (filter P l) + length (filter (λ x, ¬ P x) l))%nat.
Proof.
  induction l as [|x l IH]; [done|]. rewrite !filter_cons.
  destruct (decide (P x)) as [HP|HP].
  - rewrite decide_False by tauto. cbn. lia.
  - rewrite decide_True by done. cbn. lia.
Qed.

Lemma filter_none {A} (P : A → Prop) `{!∀ x, Decision (P x)} (l : list A) :
  Forall (λ x, ¬ P x) l → filter P l = [].
Proof. induction 1; [done|]. by rewrite filter_cons_False. Qed.

Lemma filter_all {A} (P : A → Prop) `{!∀ x, Decision (P x)} (l : list A) :
  Forall P l → filter P l = l.
Proof. induction 1; [done|]. rewrite filter_cons_True by done. by f_equal. Qed.

Lemma filter_key_NoDup {A K} `{EqDecision K} (f : A → K) (l : list A) (r : A) :
  NoDup (f <$> l) → r ∈ l → filter (λ x, f x = f r) l = [r].
Proof.
  induction l as [|x l IH]; [by intros _ ?%elem_of_nil|].
  rewrite fmap_cons, NoDup_cons. intros [Hx Hl] [->|Hr]%elem_of_cons.
  - rewrite filter_cons_True by done. f_equal.
    apply filter_none. apply Forall_forall. intros y Hy E.
    apply Hx. rewrite <- E. by apply list_elem_of_fmap_2.
  - rewrite filter_cons_False; [by apply IH|].
    intros E. apply Hx. rewrite E. by apply list_elem_of_fmap_2.
Qed.

Lemma filter_fmap_stable {A} (P : A → Prop) `{!∀ x, Decision (P x)} (f : A → A)
    (l : list A) :
  (∀ x, P (f x) ↔ P x) → filter P (f <$> l) = f <$> filter P l.
Proof.
  intros Hf. induction l as [|x l IH]; [done|]. cbn [fmap list_fmap].
  rewrite !filter_cons. destruct (decide (P x)) as [HP|HP].
  - rewrite decide_True by by apply Hf. cbn. by rewrite IH.
  - rewrite decide_False by by rewrite Hf. done.
Qed.

Lemma userHandler_GET_removed now now' req e db :
  Method req = "GET" → extractSegment (Path req) 2 = e → e ≠ "" →
  userHandler W now' req (removed now e db) =
  Ok {| status := StatusNotFound; body := J_empty |} (removed now e db).
Proof.
  intros HM HP He. unfold userHandler. rewrite HP, HM.
  rewrite decide_False by done. rewrite decide_True by done.
  unfold mbind, M_bind, Query, Sql.select_totp_created. cbn [totp removed].
  rewrite list_filter_filter.
  rewrite filter_none; [done|]. apply Forall_forall. by intros x _ [? ?].
Qed.

Lemma certHandler_GET_removed now now' req e fp db :
  NoDup (c_fingerprint <$> certs db) →
  fp ∈ Sql.select_fingerprints e db → fp ≠ "" →
  Method req = "GET" → extractSegment (Path req) 2 = fp →
  ∃ c, certHandler now' req (removed now e db) =
       Ok {| status := StatusOK; body := J_cert e c |} (removed now e db)
       ∧ Fingerprint c = fp ∧ Revoked c = Some now.
Proof.
  intros Hnd Hfp Hne HM HP.
  apply list_elem_of_fmap in Hfp as (r & -> & [Hre Hr]%list_elem_of_filter).
  exists (scan_cert_revoked_first (Sql.revoke_row now r)). split; [|done].
  unfold certHandler. rewrite HP, HM.
  rewrite decide_False by done. rewrite decide_True by done.
  unfold mbind, M_bind, Query, Sql.select_cert. cbn [certs removed].
  rewrite filter_fmap_stable.
  2:{ intros x. by destruct (decide (c_email x = e)). }
  rewrite (filter_key_NoDup c_fingerprint) by done.
  cbn. rewrite decide_True by done. unfold SendJSON, mret, M_ret. cbn.
  by rewrite Hre.
Qed.

(** C4 (as the code has it): [DELETE /user/<email>] answers with the
    fingerprints of all certificate rows of the email, the active ones and
    the ones revoked earlier alike; afterwards [GET /user/<email>] is 404,
    and [GET /cert/<fp>] of each returned fingerprint is 200 with a
    certificate of that email revoked at the time of the removal. *)
Theorem Remove_returns_all_fingerprints now req db e :
  Method req = "DELETE" → extractSegment (Path req) 2 = e → e ≠ "" →
  NoDup (c_fingerprint <$> certs db) →
  let owned := Sql.select_certs_by_email e db in
  let fps := c_fingerprint <$> owned in
  ∃ db',
    userHandler W now req db = Ok {| status := StatusOK; body := J_RevokedCerts fps |} db'
    ∧ length fps = (length (filter (λ r, c_revoked r = None) owned)
                    + length (filter (λ r, ¬ c_revoked r = None) owned))%nat
    ∧ (∀ now' req', Method req' = "GET" → extractSegment (Path req') 2 = e →
         userHandler W now' req' db' =
         Ok {| status := StatusNotFound; body := J_empty |} db')
    ∧ (∀ fp now' req', fp ∈ fps → fp ≠ "" →
         Method req' = "GET" → extractSegment (Path req') 2 = fp →
         ∃ c, certHandler now' req' db' =
              Ok {| status := StatusOK; body := J_cert e c |} db'
              ∧ Fingerprint c = fp ∧ Revoked c = Some now).
Proof.
  intros HM HP He Hnd owned fps. exists (removed now e db).
  split; [by apply userHandler_DELETE_run|]. split; [|split].
  - unfold fps. rewrite length_fmap. apply length_filter_split.
  - intros. by apply userHandler_GET_removed.
  - intros. by apply certHandler_GET_removed.
Qed.

(** C10 (as the code has it): [DELETE /user/<email>] for an email without
    identity row is answered 200 and appends one "user deleted" event that
    counts the certificate rows of that email; the list is empty and the
    count is 0 when there is no such row. *)
Theorem Remove_without_identity now req db e :
  Method req = "DELETE" → extractSegment (Path req) 2 = e → e ≠ "" →
  e ∉ t_email <$> totp db →
  let fps := Sql.select_fingerprints e db in
  ∃ db',
    userHandler W now req db = Ok {| status := StatusOK; body := J_RevokedCerts fps |} db'
    ∧ totp db' = totp db
    ∧ events db' = events db
                   ++ [{| e_event := "user deleted"; e_email := e;
                          e_value := Go.FormatInt (Z.of_nat (length fps))
                                     +:+ " certs revoked";
                          e_ts := now |}]
    ∧ (Sql.select_certs_by_email e db = [] →
       fps = [] ∧ certs db' = certs db
       ∧ Go.FormatInt (Z.of_nat (length fps)) +:+ " certs revoked" = "0 certs revoked").
Proof.
  intros HM HP He Habs fps. exists (removed now e db).
  split; [by apply userHandler_DELETE_run|]. split; [|split; [done|]].
  - cbn. apply filter_all, Forall_forall. intros r Hr E. apply Habs.
    rewrite <- E. by apply list_elem_of_fmap_2.
  - intros Hnone. unfold fps, Sql.select_fingerprints.
    unfold Sql.select_certs_by_email in Hnone. rewrite Hnone.
    split; [done|]. split; [|done]. cbn. by apply revoke_by_email_absent.
Qed.

End user_facts.

Lemma Remove_returns_all_fingerprints_witness :
  let req := Sample.request "DELETE" "/user/alice@example.com" in
  ∃ db',
    userHandler Sample.W0 200 req Sample.alice_db =
    Ok {| status := StatusOK; body := J_RevokedCerts ["f1"; "f2"] |} db'
    ∧ (∀ now' req', Method req' = "GET" →
         extractSegment (Path req') 2 = "alice@example.com" →
         userHandler Sample.W0 now' req' db' =
         Ok {| status := StatusNotFound; body := J_empty |} db').
Proof.
  intros req.
  destruct (Remove_returns_all_fingerprints Sample.W0 200 req Sample.alice_db
              "alice@example.com") as (db' & H1 & _ & H3 & _).
  - reflexivity.
  - vm_compute. reflexivity.
  - discriminate.
  - apply (bool_decide_unpack _). vm_compute. exact I.
  - exists db'. split; [exact H1 | exact H3].
Defined.

(** C4 as stated fails: alice has one active certificate, and the removal
    returns two fingerprints. *)
Lemma Remove_returns_all_fingerprints_counterexample :
  let req := Sample.request "DELETE" "/user/alice@example.com" in
  "alice@example.com" ∈ t_email <$> totp Sample.alice_db
  ∧ length (filter (λ r, c_revoked r = None)
              (Sql.select_certs_by_email "alice@example.com" Sample.alice_db)) = 1%nat
  ∧ ∃ db' fps,
      userHandler Sample.W0 200 req Sample.alice_db =
      Ok {| status := StatusOK; body := J_RevokedCerts fps |} db'
      ∧ length fps = 2%nat.
Proof.
  intros req. split; [apply (bool_decide_unpack _); vm_compute; exact I|]. split; [reflexivity|].
  eexists _, _. split; [vm_compute; reflexivity|reflexivity].
Qed.

Lemma Remove_without_identity_witness :
  let req := Sample.request "DELETE" "/user/bob@example.com" in
  ∃ db',
    userHandler Sample.W0 200 req Sample.alice_db =
    Ok {| status := StatusOK; body := J_RevokedCerts [] |} db'
    ∧ totp db' = totp Sample.alice_db
    ∧ events db' = [{| e_event := "user deleted"; e_email := "bob@example.com";
                       e_value := "0 certs revoked"; e_ts := 200 |}].
Proof.
  intros req.
  destruct (Remove_without_identity Sample.W0 200 req Sample.alice_db
              "bob@example.com") as (db' & H1 & H2 & H3 & _).
  - reflexivity.
  - vm_compute. reflexivity.
  - discriminate.
  - apply (bool_decide_unpack _). vm_compute. exact I.
  - exists db'. split; [exact H1|]. split; [exact H2 | exact H3].
Defined.

(** C10 as stated fails: alice has no identity row, yet the list of revoked
    fingerprints is not empty and the event does not say 0. *)
Lemma Remove_without_identity_counterexample :
  let req := Sample.request "DELETE" "/user/alice@example.com" in
  ("alice@example.com" ∉ t_email <$> totp Sample.orphan_db)
  ∧ ∃ db',
      userHandler Sample.W0 200 req Sample.orphan_db =
      Ok {| status := StatusOK; body := J_RevokedCerts ["f1"] |} db'
      ∧ events db' = [{| e_event := "user deleted"; e_email := "alice@example.com";
                         e_value := "1 certs revoked"; e_ts := 200 |}].
Proof.
  intros req. split; [apply (bool_decide_unpack _); vm_compute; exact I|].
  eexists. split; [vm_compute; reflexivity|reflexivity].
Qed.


(** ** Enrollment *)

Section enroll_facts.
Context (W : World).

Lemma loadSettings_unfold db :
  loadSettings db =
  match loadSettings_rows (Sql.select_settings db) with
  | Some ret =>
      Ok (set_WhitelistedUsers ret (WhitelistedUsers ret ++ live_whitelist db)) db
  | None => Panics db
  end.
Proof.
  unfold loadSettings, mbind, M_bind, Query, must.
  by destruct (loadSettings_rows (Sql.select_settings db)).
Qed.

Lemma loadSettings_row_ok ret r :
  (s_key r ∈ ["ClientLimit"; "IssuedCertDuration"] → is_Some (Go.ParseInt (s_value r))) →
  is_Some (loadSettings_row ret (s_key r, s_value r)).
Proof.
  intros H. unfold loadSettings_row.
  repeat case_decide; try done.
  - destruct H as [z ->]; [set_solver|]. done.
  - destruct H as [z ->]; [set_solver|]. done.
Qed.

Lemma loadSettings_total db :
  numeric_settings_ok db → ∃ s, loadSettings db = Ok s db.
Proof.
  intros H. rewrite loadSettings_unfold.
  enough (is_Some (loadSettings_rows (Sql.select_settings db))) as [ret ->] by eauto.
  unfold numeric_settings_ok in H. unfold loadSettings_rows, Sql.select_settings.
  generalize default_settings. induction H as [|r rows Hr _ IH]; intros s0; [done|].
  cbn [fmap list_fmap foldl].
  destruct (loadSettings_row_ok s0 r Hr) as [s1 E].
  rewrite option_bind_Some_l, E. apply IH.
Qed.

(** What a [PUT /user/<email>] does when nothing fails *)
Lemma userHandler_PUT_run now req db e s key img :
  Method req = "PUT" → extractSegment (Path req) 2 = e → e ≠ "" →
  loadSettings db = Ok s db →
  totp_Generate W (ServiceName s) e = Some key →
  Image key = Some img →
  userHandler W now req db =
  Ok {| status := StatusOK;
        body := J_TOTP e ("data:image/png;base64," +:+ base64_EncodeToString W img) |}
     (enrolled now e (Secret key) db).
Proof.
  intros HM HP He Hs Hk Hi. unfold userHandler. rewrite HP, HM.
  rewrite decide_False by done. rewrite decide_False by done.
  rewrite decide_True by done.
  unfold mbind at 1. unfold M_bind at 1. rewrite Hs, Hk.
  unfold mbind, M_bind, must, writeDatabaseByQuery, mret, M_ret; cbn.
  by rewrite Hi.
Qed.

(** C5 (as the code has it): for a non-empty email and a database whose
    stored ClientLimit and IssuedCertDuration are 32-bit decimal numbers,
    [loadSettings] returns, and whenever the TOTP library then delivers a key
    and its image, [PUT /user/<email>] answers 200 with the image, stores the
    key's secret and appends one "TOTP set" event. *)
Theorem EnrollOrRotate_succeeds now req db e :
  Method req = "PUT" → extractSegment (Path req) 2 = e → e ≠ "" →
  numeric_settings_ok db →
  ∃ s, loadSettings db = Ok s db
       ∧ ∀ key img,
           totp_Generate W (ServiceName s) e = Some key →
           Image key = Some img →
           ∃ db',
             userHandler W now req db =
             Ok {| status := StatusOK;
                   body := J_TOTP e ("data:image/png;base64,"
                                     +:+ base64_EncodeToString W img) |} db'
             ∧ events db' = events db
                            ++ [{| e_event := "TOTP set"; e_email := e;
                                   e_value := ""; e_ts := now |}]
             ∧ t_seed <$> filter (λ r, t_email r = e) (totp db') = [Secret key].
Proof.
  intros HM HP He Hok. destruct (loadSettings_total db Hok) as [s Hs].
  exists s. split; [done|]. intros key img Hk Hi.
  exists (enrolled now e (Secret key) db).
  split; [by eapply userHandler_PUT_run|]. split; [done|].
  cbn [totp enrolled]. rewrite filter_app, list_filter_filter.
  rewrite filter_none by (apply Forall_forall; by intros x _ [? ?]).
  by rewrite filter_cons_True.
Qed.

(** C3 (what the code does instead): after a [PUT /user/<email>] that
    succeeds, the one identity row of the email has [created] equal to the
    time of this request, whatever [created] was in the row it replaces. *)
Theorem reenrollment_resets_created now req db e old s key img :
  Method req = "PUT" → extractSegment (Path req) 2 = e → e ≠ "" →
  old ∈ totp db → t_email old = e →
  loadSettings db = Ok s db →
  totp_Generate W (ServiceName s) e = Some key →
  Image key = Some img →
  ∃ db' resp,
    userHandler W now req db = Ok resp db'
    ∧ filter (λ r, t_email r = e) (totp db')
      = [{| t_email := e; t_seed := Secret key; t_created := now; t_updated := now |}].
Proof.
  intros HM HP He _ _ Hs Hk Hi. eexists _, _.
  split; [by eapply userHandler_PUT_run|].
  cbn [totp enrolled]. rewrite filter_app, list_filter_filter.
  rewrite filter_none by (apply Forall_forall; by intros x _ [? ?]).
  by rewrite filter_cons_True.
Qed.

End enroll_facts.

Lemma EnrollOrRotate_succeeds_witness :
  let req := Sample.request "PUT" "/user/bob@example.com" in
  ∃ s, loadSettings Sample.alice_db = Ok s Sample.alice_db
       ∧ ∃ db',
           userHandler Sample.W0 200 req Sample.alice_db =
           Ok {| status := StatusOK;
                 body := J_TOTP "bob@example.com" "data:image/png;base64,png" |} db'
           ∧ events db' = [{| e_event := "TOTP set"; e_email := "bob@example.com";
                              e_value := ""; e_ts := 200 |}].
Proof.
  intros req.
  destruct (EnrollOrRotate_succeeds Sample.W0 200 req Sample.alice_db
              "bob@example.com") as (s & Hs & H).
  - reflexivity.
  - vm_compute. reflexivity.
  - discriminate.
  - constructor.
  - exists s. split; [exact Hs|].
    destruct (H {| Secret := "SEED-bob@example.com"; Image := Some "png" |} "png")
      as (db' & H1 & H2 & _).
    + rewrite loadSettings_unfold in Hs. vm_compute in Hs.
      injection Hs as <-. reflexivity.
    + reflexivity.
    + exists db'. split; [exact H1 | exact H2].
Defined.

(** C5 as stated fails: on a database whose stored ClientLimit does not fit
    32 bits the enrollment panics in [loadSettings], with all collaborators
    working. *)
Lemma EnrollOrRotate_succeeds_counterexample :
  let req := Sample.request "PUT" "/user/bob@example.com" in
  userHandler Sample.W0 200 req Sample.bad_limit_db = Panics Sample.bad_limit_db
  ∧ ∀ issuer, issuer ≠ "" →
      ∃ key img, totp_Generate Sample.W0 issuer "bob@example.com" = Some key
                 ∧ Image key = Some img.
Proof.
  intros req. split; [vm_compute; reflexivity|].
  intros issuer Hi. eexists _, _. cbn. rewrite decide_False by done.
  rewrite decide_False by done. split; reflexivity.
Qed.

Lemma reenrollment_resets_created_witness :
  let req := Sample.request "PUT" "/user/alice@example.com" in
  t_created <$> filter (λ r, t_email r = "alice@example.com") (totp Sample.alice_db) = [5]
  ∧ ∃ db' resp,
      userHandler Sample.W0 200 req Sample.alice_db = Ok resp db'
      ∧ filter (λ r, t_email r = "alice@example.com") (totp db')
        = [{| t_email := "alice@example.com"; t_seed := "SEED-alice@example.com";
              t_created := 200; t_updated := 200 |}].
Proof.
  intros req. split; [reflexivity|].
  apply (reenrollment_resets_created Sample.W0 200 req Sample.alice_db
           "alice@example.com"
           {| t_email := "alice@example.com"; t_seed := "s"; t_created := 5;
              t_updated := 5 |}
           default_settings
           {| Secret := "SEED-alice@example.com"; Image := Some "png" |} "png").
  - reflexivity.
  - vm_compute. reflexivity.
  - discriminate.
  - simpl. constructor.
  - reflexivity.
  - vm_compute. reflexivity.
  - vm_compute. reflexivity.
  - reflexivity.
Defined.

(** ** Revocation *)

Section cert_facts.

Lemma certHandler_DELETE_run now req db fp email rest :
  Method req = "DELETE" → extractSegment (Path req) 2 = fp → fp ≠ "" →
  Sql.select_cert_email fp db = email :: rest →
  certHandler now req db =
  Ok {| status := StatusOK; body := J_empty |} (revoked_db now fp email db).
Proof.
  intros HM HP Hfp Hrows. unfold certHandler. rewrite HP, HM.
  rewrite decide_False by done. rewrite decide_False by done.
  rewrite decide_True by done.
  unfold mbind at 1. unfold M_bind at 1. unfold Query. by rewrite Hrows.
Qed.

Lemma select_cert_email_revoked_db now fp email db :
  Sql.select_cert_email fp (revoked_db now fp email db) = Sql.select_cert_email fp db.
Proof.
  unfold Sql.select_cert_email. cbn [certs revoked_db].
  rewrite filter_fmap_stable.
  2:{ intros x. by destruct (decide (c_fingerprint x = fp)). }
  rewrite <- list_fmap_compose. apply list_fmap_ext. intros i x _. cbn.
  by destruct (decide (c_fingerprint x = fp)).
Qed.

(** C2 (as the code has it): for a fingerprint in the certificate table,
    each [DELETE /cert/<fp>] is answered 200 and appends one "certificate
    revoked" event for the owner, so two calls in a row append two. *)
Theorem Revoke_appends_an_event_each_time now1 now2 req db fp :
  Method req = "DELETE" → extractSegment (Path req) 2 = fp → fp ≠ "" →
  fp ∈ c_fingerprint <$> certs db →
  ∃ email db1 db2,
    head (Sql.select_cert_email fp db) = Some email
    ∧ certHandler now1 req db = Ok {| status := StatusOK; body := J_empty |} db1
    ∧ events db1 = events db ++ [revoked_event now1 email fp]
    ∧ certHandler now2 req db1 = Ok {| status := StatusOK; body := J_empty |} db2
    ∧ events db2 = events db ++ [revoked_event now1 email fp; revoked_event now2 email fp].
Proof.
  intros HM HP Hne Hin.
  destruct (Sql.select_cert_email fp db) as [|email rest] eqn:Hrows.
  { exfalso. apply list_elem_of_fmap in Hin as (r & -> & Hr).
    assert (c_email r ∈ Sql.select_cert_email (c_fingerprint r) db) as Hmem.
    { apply list_elem_of_fmap_2, list_elem_of_filter. done. }
    rewrite Hrows in Hmem. by apply elem_of_nil in Hmem. }
  exists email, (revoked_db now1 fp email db),
    (revoked_db now2 fp email (revoked_db now1 fp email db)).
  split; [done|]. split; [by eapply certHandler_DELETE_run|]. split; [done|].
  split.
  - eapply certHandler_DELETE_run; [done..|].
    rewrite select_cert_email_revoked_db. exact Hrows.
  - cbn [events revoked_db]. by rewrite <- app_assoc.
Qed.

End cert_facts.

Lemma Revoke_appends_an_event_each_time_witness :
  let req := Sample.request "DELETE" "/cert/f1" in
  ∃ email db1 db2,
    head (Sql.select_cert_email "f1" Sample.alice_db) = Some email
    ∧ certHandler 200 req Sample.alice_db =
      Ok {| status := StatusOK; body := J_empty |} db1
    ∧ events db1 = events Sample.alice_db ++ [revoked_event 200 email "f1"]
    ∧ certHandler 300 req db1 = Ok {| status := StatusOK; body := J_empty |} db2
    ∧ events db2 = events Sample.alice_db
                   ++ [revoked_event 200 email "f1"; revoked_event 300 email "f1"].
Proof.
  intros req.
  apply (Revoke_appends_an_event_each_time 200 300 req Sample.alice_db "f1").
  - reflexivity.
  - vm_compute. reflexivity.
  - discriminate.
  - apply (bool_decide_unpack _). vm_compute. exact I.
Defined.

(** C2 as stated fails: the second revocation of alice's certificate changes
    the audit log, which then holds two "certificate revoked" events. *)
Lemma Revoke_appends_an_event_each_time_counterexample :
  let req := Sample.request "DELETE" "/cert/f1" in
  "f1" ∈ c_fingerprint <$> certs Sample.alice_db
  ∧ ∃ resp1 db1 resp2 db2,
      certHandler 200 req Sample.alice_db = Ok resp1 db1
      ∧ certHandler 300 req db1 = Ok resp2 db2
      ∧ events db2 ≠ events db1
      ∧ length (filter (λ r, e_event r = "certificate revoked") (events db2)) = 2%nat.
Proof.
  intros req. split; [apply (bool_decide_unpack _); vm_compute; exact I|].
  eexists _, _, _, _. split; [vm_compute; reflexivity|].
  split; [vm_compute; reflexivity|]. split; [|reflexivity].
  vm_compute. discriminate.
Qed.

(** ** The audit log *)

Section events_facts.
Context (W : World).

#[local] Instance by_Timestamp_desc_total : Total by_Timestamp_desc.
Proof. intros x y. unfold by_Timestamp_desc. lia. Qed.
#[local] Instance by_Timestamp_desc_trans : Transitive by_Timestamp_desc.
Proof. intros x y z. unfold by_Timestamp_desc. lia. Qed.
#[local] Instance ts_desc_total : Total Sql.ts_desc.
Proof. intros x y. unfold Sql.ts_desc. lia. Qed.
#[local] Instance ts_desc_trans : Transitive Sql.ts_desc.
Proof. intros x y z. unfold Sql.ts_desc. lia. Qed.

Lemma listing_perm rows : listing rows ≡ₚ scan_event <$> rows.
Proof. apply merge_sort_Permutation. Qed.

Lemma listing_sorted rows : newest_first (listing rows).
Proof. apply StronglySorted_merge_sort; apply _. Qed.

Lemma listing_length rows : length (listing rows) = length rows.
Proof. by rewrite listing_perm, length_fmap. Qed.

Lemma events_respond_run now req q db :
  events_respond now req q db =
  Ok {| status := StatusOK; body := J_Events (listing (q db)) |}
     (if decide (Method req = "DELETE")
      then set_events db [reset_event now (length (listing (q db)))]
      else db).
Proof.
  unfold events_respond, mbind, M_bind, Query, SendJSON, mret, M_ret. cbn beta iota.
  by destruct (decide (Method req = "DELETE")).
Qed.


Lemma eventsHandler_unfold now req db before :
  ParseForm req = Some before →
  eventsHandler W now req db =
  if decide (before = "") then events_respond now req Sql.select_events db
  else if decide (before = "all") then events_respond now req Sql.select_events_all db
  else match time_Parse W before with
       | None => Ok {| status := StatusBadRequest; body := J_empty |} db
       | Some t => events_respond now req (Sql.select_events_before t) db
       end.
Proof.
  intros HF. unfold eventsHandler. rewrite HF.
  unfold mbind at 1. unfold M_bind at 1. cbn.
  repeat case_decide; try done. by destruct (time_Parse W before).
Qed.


(** C6 (what the code does instead): [DELETE /events] without [before] on a
    log of more than 25 events answers with 25 of them, deletes them all, and
    the one event it leaves says that 25 were cleared. *)
Theorem Clear_counts_the_listed_page now req db :
  Method req = "DELETE" → ParseForm req = Some "" →
  (25 < length (events db))%nat →
  ∃ L db',
    eventsHandler W now req db = Ok {| status := StatusOK; body := J_Events L |} db'
    ∧ length L = 25%nat
    ∧ events db' = [{| e_event := "events log reset"; e_email := "";
                       e_value := "25 events cleared"; e_ts := now |}].
Proof.
  intros HM HF Hlen. rewrite (eventsHandler_unfold now req db "" HF).
  rewrite decide_True by done. rewrite events_respond_run, HM.
  rewrite decide_True by done.
  assert (length (listing (Sql.select_events db)) = 25%nat) as HL.
  { unfold Sql.select_events. rewrite listing_length, length_take.
    rewrite merge_sort_Permutation. lia. }
  eexists _, _. split; [reflexivity|]. split; [done|].
  cbn [events set_events]. by rewrite HL.
Qed.

End events_facts.


Lemma Clear_counts_the_listed_page_witness :
  length (events Sample.busy_db) = 26%nat
  ∧ ∃ L db',
      eventsHandler Sample.W0 200 (Sample.events_request "DELETE" "") Sample.busy_db
      = Ok {| status := StatusOK; body := J_Events L |} db'
      ∧ length L = 25%nat
      ∧ events db' = [{| e_event := "events log reset"; e_email := "";
                         e_value := "25 events cleared"; e_ts := 200 |}].
Proof.
  split; [reflexivity|].
  apply (Clear_counts_the_listed_page Sample.W0 200
           (Sample.events_request "DELETE" "") Sample.busy_db).
  - reflexivity.
  - reflexivity.
  - vm_compute. lia.
Defined.

(** ** Issuance *)

Section issue_facts.
Context (W : World).

Lemma hex_string_head d :
  d ≠ Hexadecimal.Nil →
  ∃ c rest, HexadecimalString.NilEmpty.string_of_uint d = String c rest
            ∧ c ≠ "+"%char ∧ c ≠ "-"%char.
Proof. destruct d; [done|..]; intros _; simpl; eexists _, _; (split; [done|done]). Qed.

Lemma hex_string_lower d :
  Go.map_string Go.lower_hex (HexadecimalString.NilEmpty.string_of_uint d)
  = HexadecimalString.NilEmpty.string_of_uint d.
Proof. induction d; simpl; [done|..]; by rewrite IHd. Qed.

Lemma to_hex_uint_nonnil n : N.to_hex_uint n ≠ Hexadecimal.Nil.
Proof. destruct n; simpl; [done|]. apply HexadecimalPos.Unsigned.to_uint_nonnil. Qed.

Lemma SetString16_Sprintf_x n : Go.SetString16 (Go.Sprintf_x n) = Some (Z.of_N n).
Proof.
  unfold Go.SetString16, Go.Sprintf_x.
  pose proof (hex_string_lower (N.to_hex_uint n)) as HL.
  pose proof (HexadecimalString.NilEmpty.usu (N.to_hex_uint n)) as HU.
  destruct (hex_string_head _ (to_hex_uint_nonnil n)) as (c & rest & E & H1 & H2).
  rewrite E in *. rewrite decide_False by done. rewrite decide_False by done.
  rewrite HL, HU. cbn. by rewrite HexadecimalN.Unsigned.of_to.
Qed.

(** The guards of [POST /certs/<email>] that answer 400 *)
Lemma certsHandler_POST_no_description now req db email :
  Method req = "POST" → extractSegment (Path req) 2 = email → email ≠ "" →
  PopulateFromBody req = Some {| body_Email := email; body_Description := "" |} →
  certsHandler W now req db = Ok {| status := StatusBadRequest; body := J_empty |} db.
Proof.
  intros HM HP He HB. unfold certsHandler. rewrite HP, HM, HB.
  rewrite decide_False by done. rewrite decide_True by done.
  rewrite decide_False by done. cbn.
  rewrite decide_False by tauto. by rewrite decide_True.
Qed.

Lemma certsHandler_POST_no_identity now req db email description :
  Method req = "POST" → extractSegment (Path req) 2 = email → email ≠ "" →
  PopulateFromBody req
  = Some {| body_Email := email; body_Description := description |} →
  description ≠ "" → email ∉ t_email <$> totp db →
  certsHandler W now req db = Ok {| status := StatusNotFound; body := J_empty |} db.
Proof.
  intros HM HP He HB Hd Habs. unfold certsHandler. rewrite HP, HM, HB.
  rewrite decide_False by done. rewrite decide_True by done.
  rewrite decide_False by done. cbn.
  rewrite decide_False by tauto. rewrite decide_False by done.
  unfold mbind, M_bind, Query, Sql.select_totp_email.
  rewrite filter_none; [done|]. apply Forall_forall. intros r Hr E. apply Habs.
  rewrite <- E. by apply list_elem_of_fmap_2.
Qed.

Lemma certsHandler_POST_run now req db email description
    identity serial authority s kp fp pem tlsauth t ovpn expires :
  Method req = "POST" → extractSegment (Path req) 2 = email → email ≠ "" →
  PopulateFromBody req
  = Some {| body_Email := email; body_Description := description |} →
  description ≠ "" →
  filter (λ r, t_email r = email) (totp db) = [identity] →
  rand_Int W (N.shiftl 1 128) = Some serial →
  ca_LoadFromPEM W = Some authority →
  loadSettings db = Ok s db →
  CreateClientKeypair authority (IssuedCertDuration s)
    {| Organization := [ServiceName s]; CommonName := email |}
    (Z.of_N serial) 4096 = Some kp →
  CertFingerprint kp = Some fp →
  ToPEM kp = Some pem →
  ReadFile_TLSAuth W = Some tlsauth →
  template_ParseFiles W = Some t →
  t {| tpl_CA := ExportCertChain authority; tpl_Cert := pem.1; tpl_Key := pem.2;
       tpl_TLSAuth := tlsauth |} = Some ovpn →
  sqlite_date W now (IssuedCertDuration s) = Some expires →
  fp ∉ c_fingerprint <$> certs db →
  certsHandler W now req db =
  Ok {| status := StatusCreated;
        body := J_OVPN ("data:image/ovpn;base64," +:+ base64_EncodeToString W ovpn) |}
     (set_events
        (set_certs db (certs db ++ [issued_cert now email fp description expires]))
        (events db ++ [issued_event now email fp description])).
Proof.
  intros HM HP He HB Hd Hid Hrand Hca Hs Hkp Hfp Hpem Hta Htpl Hovpn Hdate Hfresh.
  unfold certsHandler. rewrite HP, HM, HB.
  rewrite decide_False by done. rewrite decide_True by done.
  rewrite decide_False by done. cbn [body_Email body_Description].
  rewrite decide_False by tauto. rewrite decide_False by done.
  unfold mbind at 1. unfold M_bind at 1. unfold Query, Sql.select_totp_email.
  rewrite Hid. cbn [fmap list_fmap].
  unfold makeCertSerial, mbind, M_bind, must, mret, M_ret, panic.
  rewrite Hrand. cbn beta iota. rewrite SetString16_Sprintf_x, Hca. cbn beta iota.
  rewrite Hs, Hkp. cbn beta iota. rewrite Hfp, Hpem, Hta, Htpl. cbn beta iota.
  rewrite Hovpn, Hdate.
  unfold writeDatabaseByQuery, Sql.insert_cert. rewrite decide_False by done.
  reflexivity.
Qed.

(** C9 (as the code has it): a [POST /certs/<email>] whose body names the
    same email is answered 400 when the description is empty, whether or not
    the email is enrolled; 404 when the description is not empty and the
    email has no identity row; in both cases the database is left as it was.
    With a description, one identity row, settings that load, every
    collaborator delivering and a fingerprint not yet in the table, it is
    answered 201 and appends the ledger row and one "certificate issued"
    event. *)
Theorem Issue_preconditions now req db email description :
  Method req = "POST" → extractSegment (Path req) 2 = email → email ≠ "" →
  PopulateFromBody req
  = Some {| body_Email := email; body_Description := description |} →
  (description = "" →
     certsHandler W now req db = Ok {| status := StatusBadRequest; body := J_empty |} db)
  ∧ (description ≠ "" → email ∉ t_email <$> totp db →
     certsHandler W now req db = Ok {| status := StatusNotFound; body := J_empty |} db)
  ∧ (description ≠ "" →
     ∀ identity serial authority s kp fp pem tlsauth t ovpn expires,
       filter (λ r, t_email r = email) (totp db) = [identity] →
       rand_Int W (N.shiftl 1 128) = Some serial →
       ca_LoadFromPEM W = Some authority →
       loadSettings db = Ok s db →
       CreateClientKeypair authority (IssuedCertDuration s)
         {| Organization := [ServiceName s]; CommonName := email |}
         (Z.of_N serial) 4096 = Some kp →
       CertFingerprint kp = Some fp →
       ToPEM kp = Some pem →
       ReadFile_TLSAuth W = Some tlsauth →
       template_ParseFiles W = Some t →
       t {| tpl_CA := ExportCertChain authority; tpl_Cert := pem.1; tpl_Key := pem.2;
            tpl_TLSAuth := tlsauth |} = Some ovpn →
       sqlite_date W now (IssuedCertDuration s) = Some expires →
       fp ∉ c_fingerprint <$> certs db →
       ∃ db',
         certsHandler W now req db =
         Ok {| status := StatusCreated;
               body := J_OVPN ("data:image/ovpn;base64,"
                               +:+ base64_EncodeToString W ovpn) |} db'
         ∧ certs db' = certs db ++ [issued_cert now email fp description expires]
         ∧ events db' = events db ++ [issued_event now email fp description]
         ∧ totp db' = totp db).
Proof.
  intros HM HP He HB. split; [|split].
  - intros ->. by apply (certsHandler_POST_no_description now req db email).
  - intros. by apply (certsHandler_POST_no_identity now req db email description).
  - intros Hd identity serial authority s kp fp pem tlsauth t ovpn expires **.
    eexists. split.
    { by apply (certsHandler_POST_run now req db email description identity serial
                authority s kp fp pem tlsauth t ovpn expires). }
    done.
Qed.

End issue_facts.

Lemma Issue_preconditions_witness :
  certsHandler Sample.W0 200 (Sample.issue_request "alice@example.com" "") Sample.alice_db
  = Ok {| status := StatusBadRequest; body := J_empty |} Sample.alice_db
  ∧ certsHandler Sample.W0 200 (Sample.issue_request "bob@example.com" "tablet")
      Sample.alice_db
    = Ok {| status := StatusNotFound; body := J_empty |} Sample.alice_db
  ∧ ∃ db',
      certsHandler Sample.W0 200 (Sample.issue_request "alice@example.com" "tablet")
        Sample.alice_db
      = Ok {| status := StatusCreated;
              body := J_OVPN "data:image/ovpn;base64,chaincrt" |} db'
      ∧ certs db' = certs Sample.alice_db
                    ++ [issued_cert 200 "alice@example.com" "f9" "tablet" 7776000]
      ∧ events db' = events Sample.alice_db
                     ++ [issued_event 200 "alice@example.com" "f9" "tablet"]
      ∧ totp db' = totp Sample.alice_db.
Proof.
  split; [|split].
  - apply (Issue_preconditions Sample.W0 200
             (Sample.issue_request "alice@example.com" "") Sample.alice_db
             "alice@example.com" "");
      [reflexivity | vm_compute; reflexivity | discriminate | reflexivity | reflexivity].
  - apply (Issue_preconditions Sample.W0 200
             (Sample.issue_request "bob@example.com" "tablet") Sample.alice_db
             "bob@example.com" "tablet");
      [reflexivity | vm_compute; reflexivity | discriminate | reflexivity
      | discriminate | apply (bool_decide_unpack _); vm_compute; exact I].
  - apply (Issue_preconditions Sample.W0 200
             (Sample.issue_request "alice@example.com" "tablet") Sample.alice_db
             "alice@example.com" "tablet")
      with (identity := {| t_email := "alice@example.com"; t_seed := "s";
                           t_created := 5; t_updated := 5 |})
           (serial := 255%N)
           (authority := {| CreateClientKeypair := λ _ _ _ _,
                              Some {| CertFingerprint := Some "f9";
                                      ToPEM := Some ("crt", "key") |};
                            ExportCertChain := "chain" |})
           (s := default_settings)
           (kp := {| CertFingerprint := Some "f9"; ToPEM := Some ("crt", "key") |})
           (pem := ("crt", "key")) (tlsauth := "ta")
           (t := λ d, Some (tpl_CA d +:+ tpl_Cert d));
      try (vm_compute; reflexivity); try discriminate.
    apply (bool_decide_unpack _). vm_compute. exact I.
Defined.

(** C9 as stated fails: bob has no identity row, and a request for him with
    an empty description is answered 400, not 404. *)
Lemma Issue_preconditions_counterexample :
  ("bob@example.com" ∉ t_email <$> totp Sample.alice_db)
  ∧ certsHandler Sample.W0 200 (Sample.issue_request "bob@example.com" "")
      Sample.alice_db
    = Ok {| status := StatusBadRequest; body := J_empty |} Sample.alice_db
  ∧ StatusBadRequest ≠ StatusNotFound.
Proof.
  split; [apply (bool_decide_unpack _); vm_compute; exact I|].
  split; [vm_compute; reflexivity | discriminate].
Qed.

(** ** The fleet listing *)

Section list_all_facts.
Context (W : World).

Lemma certs_all_row_panics users row : certs_all_row users row = None.
Proof. reflexivity. Qed.

Lemma certs_all_rows_panics rows : rows ≠ [] → certs_all_rows rows = None.
Proof.
  destruct rows as [|row rows]; [done|]. intros _. unfold certs_all_rows.
  cbn [foldl]. rewrite option_bind_Some_l, certs_all_row_panics.
  induction rows as [|row' rows IH]; [done|]. exact IH.
Qed.

Lemma join_nonempty db t c :
  t ∈ totp db → c ∈ certs db → t_email t = c_email c →
  Sql.select_totp_join_certs db ≠ [].
Proof.
  intros Ht Hc E Hnil.
  assert ((t, c) ∈ Sql.select_totp_join_certs db) as Hin.
  { unfold Sql.select_totp_join_certs. apply list_elem_of_bind. exists t.
    split; [|done]. apply list_elem_of_bind. exists c.
    split; [apply list_elem_of_singleton; done|].
    by apply list_elem_of_filter. }
  rewrite Hnil in Hin. by apply elem_of_nil in Hin.
Qed.

(** Without any certificate of an enrolled user the listing is empty *)
Lemma certsHandler_GET_all_empty now req db :
  Method req = "GET" → extractSegment (Path req) 2 = "" →
  Sql.select_totp_join_certs db = [] →
  certsHandler W now req db = Ok {| status := StatusOK; body := J_Certs [] |} db.
Proof.
  intros HM HP Hj. unfold certsHandler. rewrite HP, HM.
  rewrite decide_True by done. rewrite decide_True by done.
  unfold mbind, M_bind, Query. by rewrite Hj.
Qed.

(** C1 (what the code does instead): as soon as one enrolled email owns one
    certificate row, [GET /certs] panics in its row loop and sends no
    listing. *)
Theorem ListAll_panics now req db t c :
  Method req = "GET" → extractSegment (Path req) 2 = "" →
  t ∈ totp db → c ∈ certs db → t_email t = c_email c →
  certsHandler W now req db = Panics db.
Proof.
  intros HM HP Ht Hc E. unfold certsHandler. rewrite HP, HM.
  rewrite decide_True by done. rewrite decide_True by done.
  unfold mbind, M_bind, Query.
  by rewrite certs_all_rows_panics by by eapply join_nonempty.
Qed.

End list_all_facts.

Lemma ListAll_panics_witness :
  certsHandler Sample.W0 200 (Sample.request "GET" "/certs") Sample.alice_db
  = Panics Sample.alice_db.
Proof.
  apply (ListAll_panics Sample.W0 200 (Sample.request "GET" "/certs") Sample.alice_db
           {| t_email := "alice@example.com"; t_seed := "s"; t_created := 5;
              t_updated := 5 |}
           {| c_email := "alice@example.com"; c_fingerprint := "f1";
              c_desc := "laptop"; c_created := 10; c_expires := 100;
              c_revoked := None |}).
  - reflexivity.
  - vm_compute. reflexivity.
  - simpl. constructor.
  - simpl. constructor.
  - reflexivity.
Defined.

(** The per-user listing of the same data, for comparison: [GET
    /certs/<email>] puts the certificate without [revoked] under ActiveCerts
    and the other under RevokedCerts. *)
Example certsHandler_GET_one_alice :
  certsHandler Sample.W0 200 (Sample.request "GET" "/certs/alice@example.com")
    Sample.alice_db
  = Ok {| status := StatusOK;
          body := J_user
                    {| Email := "alice@example.com"; user_Created := Some 5;
                       ActiveCerts := [scan_cert {| c_email := "alice@example.com";
                                                    c_fingerprint := "f1";
                                                    c_desc := "laptop"; c_created := 10;
                                                    c_expires := 100;
                                                    c_revoked := None |}];
                       RevokedCerts := [scan_cert {| c_email := "alice@example.com";
                                                     c_fingerprint := "f2";
                                                     c_desc := "phone"; c_created := 11;
                                                     c_expires := 100;
                                                     c_revoked := Some 50 |}] |} |}
       Sample.alice_db.
Proof. vm_compute. reflexivity. Qed.

(** * Beyond the claims *)

(** ** Path segments *)

Section segment_facts.

Lemma Split_sep_free s c : Forall (λ chunk, has_byte c chunk = false) (Go.Split s c).
Proof.
  induction s as [|a s IH]; cbn [Go.Split]; [by repeat constructor|].
  destruct (decide (a = c)) as [->|Hne]; [by constructor|].
  destruct (Go.Split s c) as [|chunk chunks].
  - constructor; [|done]. cbn. by rewrite decide_False.
  - apply Forall_cons in IH as [H1 H2]. constructor; [|done].
    cbn. by rewrite decide_False.
Qed.

(** X1: [extractSegment] picks a chunk between slashes: its result never holds a
    slash; of a path [/a/b] or [/a/b/...] with [a] and [b] free of slashes it
    returns [b] for [n = 2]; of [/a] and of [/a/] it returns the empty
    string. *)
Theorem extractSegment_third a b rest path n :
  slash_free a → slash_free b →
  slash_free (extractSegment path n)
  ∧ extractSegment ("/" +:+ a +:+ "/" +:+ b) 2 = b
  ∧ extractSegment ("/" +:+ a +:+ "/" +:+ b +:+ "/" +:+ rest) 2 = b
  ∧ extractSegment ("/" +:+ a) 2 = ""
  ∧ extractSegment ("/" +:+ a +:+ "/") 2 = "".
Proof.
  intros Ha Hb. unfold slash_free in *. split; [|split; [|split; [|split]]].
  - unfold extractSegment, slash_free.
    destruct (Go.Split path "/" !! n) as [chunk|] eqn:E; [|done].
    apply list_elem_of_lookup_2 in E.
    pose proof (Split_sep_free path "/") as HF. rewrite Forall_forall in HF. eauto.
  - unfold extractSegment.
    change ("/" +:+ a +:+ "/" +:+ b) with (String "/" (a +:+ String "/" b)).
    cbn [Go.Split]. rewrite decide_True by done.
    rewrite Split_app_sep by done. by rewrite Split_no_sep.
  - unfold extractSegment.
    change ("/" +:+ a +:+ "/" +:+ b +:+ "/" +:+ rest)
      with (String "/" (a +:+ String "/" (b +:+ String "/" rest))).
    cbn [Go.Split]. rewrite decide_True by done.
    rewrite Split_app_sep by done. by rewrite Split_app_sep.
  - unfold extractSegment. change ("/" +:+ a) with (String "/" a).
    cbn [Go.Split]. rewrite decide_True by done. by rewrite Split_no_sep.
  - unfold extractSegment.
    change ("/" +:+ a +:+ "/") with (String "/" (a +:+ String "/" "")).
    cbn [Go.Split]. rewrite decide_True by done.
    by rewrite Split_app_sep.
Qed.

End segment_facts.

Lemma extractSegment_third_witness :
  slash_free (extractSegment "/user/bob@example.com/x" 1)
  ∧ extractSegment ("/" +:+ "user" +:+ "/" +:+ "bob@example.com") 2 = "bob@example.com"
  ∧ extractSegment ("/" +:+ "user" +:+ "/" +:+ "bob@example.com" +:+ "/" +:+ "x/y") 2
    = "bob@example.com"
  ∧ extractSegment ("/" +:+ "user") 2 = ""
  ∧ extractSegment ("/" +:+ "user" +:+ "/") 2 = "".
Proof.
  apply (extractSegment_third "user" "bob@example.com" "x/y"
           "/user/bob@example.com/x" 1); reflexivity.
Defined.

(** ** Settings *)

Section more_settings_facts.

Lemma foldl_None {A B} (f : A → B → option A) (l : list B) :
  foldl (λ acc x, a ← acc; f a x) None l = None.
Proof. induction l as [|x l IH]; [done|]. exact IH. Qed.

Lemma loadSettings_row_fields ret k v ret' :
  loadSettings_row ret (k, v) = Some ret' →
  (k ≠ "ServiceName" → ServiceName ret' = ServiceName ret)
  ∧ (k ≠ "ClientLimit" → ClientLimit ret' = ClientLimit ret)
  ∧ (k ≠ "IssuedCertDuration" → IssuedCertDuration ret' = IssuedCertDuration ret)
  ∧ (k ≠ "WhitelistedDomains" → WhitelistedDomains ret' = WhitelistedDomains ret)
  ∧ WhitelistedUsers ret' = WhitelistedUsers ret.
Proof.
  unfold loadSettings_row. repeat case_decide; subst.
  - intros [= <-]. by repeat split.
  - destruct (Go.ParseInt v); [|done]. intros [= <-]. by repeat split.
  - destruct (Go.ParseInt v); [|done]. intros [= <-]. by repeat split.
  - intros [= <-]. by repeat split.
  - intros [= <-]. by repeat split.
Qed.

Lemma loadSettings_rows_fields rows ret0 s :
  foldl (λ acc kv, ret ← acc; loadSettings_row ret kv) (Some ret0) rows = Some s →
  ("ServiceName" ∉ rows.*1 → ServiceName s = ServiceName ret0)
  ∧ ("ClientLimit" ∉ rows.*1 → ClientLimit s = ClientLimit ret0)
  ∧ ("IssuedCertDuration" ∉ rows.*1 → IssuedCertDuration s = IssuedCertDuration ret0)
  ∧ ("WhitelistedDomains" ∉ rows.*1 → WhitelistedDomains s = WhitelistedDomains ret0)
  ∧ WhitelistedUsers s = WhitelistedUsers ret0.
Proof.
  revert ret0. induction rows as [|[k v] rows IH]; intros ret0.
  - intros [= <-]. by repeat split.
  - cbn [foldl]. rewrite option_bind_Some_l.
    destruct (loadSettings_row ret0 (k, v)) as [ret1|] eqn:E;
      [|by rewrite foldl_None].
    intros Hs. apply IH in Hs as (H1 & H2 & H3 & H4 & H5).
    apply loadSettings_row_fields in E as (E1 & E2 & E3 & E4 & E5).
    cbn [fmap list_fmap fst]. rewrite !not_elem_of_cons.
    repeat split.
    + intros [? ?]. rewrite H1, E1; done.
    + intros [? ?]. rewrite H2, E2; done.
    + intros [? ?]. rewrite H3, E3; done.
    + intros [? ?]. rewrite H4, E4; done.
    + by rewrite H5, E5.
Qed.

Lemma loadSettings_Ok_inv db s :
  loadSettings db = Ok s db →
  ∃ ret, loadSettings_rows (Sql.select_settings db) = Some ret
         ∧ s = set_WhitelistedUsers ret (WhitelistedUsers ret ++ live_whitelist db).
Proof.
  rewrite loadSettings_unfold.
  destruct (loadSettings_rows (Sql.select_settings db)) as [ret|]; [|done].
  intros [= <-]. eauto.
Qed.

Lemma loadSettings_users db s :
  loadSettings db = Ok s db → WhitelistedUsers s = live_whitelist db.
Proof.
  intros (ret & Hret & ->)%loadSettings_Ok_inv.
  apply loadSettings_rows_fields in Hret as (_ & _ & _ & _ & H5).
  cbn. by rewrite H5.
Qed.

(** X2: A key without row leaves its field at the default: the service label,
    2 clients, 90 days, no domains; WhitelistedUsers is always the sorted
    list of the non-empty emails of the whitelist table. *)
Theorem loadSettings_defaults db s :
  loadSettings db = Ok s db →
  ("ServiceName" ∉ s_key <$> settings_table db → ServiceName s = "Bifröst VPN")
  ∧ ("ClientLimit" ∉ s_key <$> settings_table db → ClientLimit s = 2)
  ∧ ("IssuedCertDuration" ∉ s_key <$> settings_table db → IssuedCertDuration s = 90)
  ∧ ("WhitelistedDomains" ∉ s_key <$> settings_table db → WhitelistedDomains s = [])
  ∧ WhitelistedUsers s = live_whitelist db.
Proof.
  intros (ret & Hret & ->)%loadSettings_Ok_inv.
  apply loadSettings_rows_fields in Hret as (H1 & H2 & H3 & H4 & H5).
  assert ((Sql.select_settings db).*1 = s_key <$> settings_table db) as E.
  { unfold Sql.select_settings. rewrite <- list_fmap_compose. done. }
  rewrite E in *. cbn. rewrite H5. by repeat split.
Qed.

Lemma loadSettings_row_Some_inv ret k v ret' :
  loadSettings_row ret (k, v) = Some ret' →
  k ∈ ["ClientLimit"; "IssuedCertDuration"] → is_Some (Go.ParseInt v).
Proof.
  intros H Hk.
  apply elem_of_cons in Hk as [->|Hk];
    [|apply elem_of_cons in Hk as [->|Hk]; [|by apply elem_of_nil in Hk]].
  - rewrite loadSettings_row_ClientLimit in H. by destruct (Go.ParseInt v).
  - rewrite loadSettings_row_IssuedCertDuration in H. by destruct (Go.ParseInt v).
Qed.

Lemma loadSettings_rows_Some_inv (rows : list settings_row) ret0 s :
  foldl (λ acc kv, ret ← acc; loadSettings_row ret kv) (Some ret0)
    ((λ r, (s_key r, s_value r)) <$> rows) = Some s →
  Forall (λ r, s_key r ∈ ["ClientLimit"; "IssuedCertDuration"] →
               is_Some (Go.ParseInt (s_value r))) rows.
Proof.
  revert ret0. induction rows as [|r rows IH]; intros ret0; [by constructor|].
  cbn [fmap list_fmap foldl]. rewrite option_bind_Some_l.
  destruct (loadSettings_row ret0 (s_key r, s_value r)) as [ret1|] eqn:E;
    [|by rewrite foldl_None].
  intros Hs. constructor; [by eapply loadSettings_row_Some_inv | by eapply IH].
Qed.

(** X3: [loadSettings] returns exactly when every stored ClientLimit and
    IssuedCertDuration is a decimal number of 32 bits, and panics otherwise;
    either way it leaves the database alone. *)
Theorem loadSettings_returns_or_panics db :
  (numeric_settings_ok db ∧ ∃ s, loadSettings db = Ok s db)
  ∨ (¬ numeric_settings_ok db ∧ loadSettings db = Panics db).
Proof.
  rewrite loadSettings_unfold.
  destruct (loadSettings_rows (Sql.select_settings db)) as [ret|] eqn:E.
  - left. split; [|eauto]. by eapply loadSettings_rows_Some_inv.
  - right. split; [|done]. intros Hok.
    destruct (loadSettings_total db Hok) as [s Hs].
    rewrite loadSettings_unfold, E in Hs. done.
Qed.

End more_settings_facts.

Lemma loadSettings_defaults_witness :
  ∃ s, loadSettings Sample.whitelisted_db = Ok s Sample.whitelisted_db
       ∧ ServiceName s = "Bifröst VPN" ∧ ClientLimit s = 7
       ∧ IssuedCertDuration s = 90 ∧ WhitelistedDomains s = []
       ∧ WhitelistedUsers s = ["alice@example.com"; "bob@example.com"].
Proof.
  eexists. split; [vm_compute; reflexivity|].
  destruct (loadSettings_defaults Sample.whitelisted_db
              (set_WhitelistedUsers (set_ClientLimit default_settings 7)
                 ["alice@example.com"; "bob@example.com"]))
    as (H1 & _ & H3 & H4 & H5).
  - vm_compute. reflexivity.
  - split; [apply H1; apply (bool_decide_unpack _); vm_compute; exact I|].
    split; [reflexivity|].
    split; [apply H3; apply (bool_decide_unpack _); vm_compute; exact I|].
    split; [apply H4; apply (bool_decide_unpack _); vm_compute; exact I|].
    exact H5.
Defined.

Section settings_shape_facts.

Lemma StronglySorted_filter {A} (R : relation A) (P : A → Prop)
    `{!∀ x, Decision (P x)} (l : list A) :
  StronglySorted R l → StronglySorted R (filter P l).
Proof.
  induction 1 as [|x l Hl IH Hx]; [constructor|].
  rewrite filter_cons. destruct (decide (P x)); [|done].
  constructor; [done|]. rewrite Forall_forall in *.
  intros y [_ Hy]%list_elem_of_filter. by apply Hx.
Qed.

Lemma Sorted_le_filter (P : string → Prop) `{!∀ x, Decision (P x)} (l : list string) :
  Sorted String.le l → Sorted String.le (filter P l).
Proof.
  intros Hl. apply StronglySorted_Sorted, StronglySorted_filter.
  by apply Sorted_StronglySorted; [apply _|].
Qed.

Lemma live_whitelist_sorted db :
  Sorted String.le (live_whitelist db) ∧ Forall (λ e, e ≠ "") (live_whitelist db).
Proof.
  unfold live_whitelist, Sql.select_whitelist. split.
  - apply Sorted_le_filter. apply Sorted_merge_sort. apply _.
  - apply Forall_forall. by intros e [? _]%list_elem_of_filter.
Qed.

Lemma loadSettings_row_domains ret kv ret' :
  loadSettings_row ret kv = Some ret' →
  Sorted String.le (WhitelistedDomains ret) ∧ Forall (λ d, d ≠ "") (WhitelistedDomains ret) →
  Sorted String.le (WhitelistedDomains ret') ∧ Forall (λ d, d ≠ "") (WhitelistedDomains ret').
Proof.
  destruct kv as [k v]. intros E [Hs Hf].
  destruct (decide (k = "WhitelistedDomains")) as [->|Hk].
  - rewrite loadSettings_row_WhitelistedDomains in E. injection E as <-.
    cbn [WhitelistedDomains set_WhitelistedDomains]. split.
    + apply Sorted_merge_sort. apply _.
    + unfold Go.sort_Strings, Go.sort_Slice. rewrite merge_sort_Permutation.
      apply Forall_app. split; [done|].
      apply Forall_forall. by intros d [? _]%list_elem_of_filter.
  - apply loadSettings_row_fields in E as (_ & _ & _ & E & _). by rewrite E.
Qed.

(** X4: Whatever the tables hold, the snapshot that [loadSettings] returns has
    its domains and its users in ascending order and without empty
    entries. *)
Theorem loadSettings_sorted db s :
  loadSettings db = Ok s db →
  Sorted String.le (WhitelistedDomains s)
  ∧ Forall (λ d, d ≠ "") (WhitelistedDomains s)
  ∧ Sorted String.le (WhitelistedUsers s)
  ∧ Forall (λ e, e ≠ "") (WhitelistedUsers s).
Proof.
  intros Hs. pose proof (loadSettings_users db s Hs) as HU.
  apply loadSettings_Ok_inv in Hs as (ret & Hret & ->).
  cbn [WhitelistedUsers set_WhitelistedUsers WhitelistedDomains] in *.
  rewrite HU. destruct (live_whitelist_sorted db) as [H1 H2].
  enough (Sorted String.le (WhitelistedDomains ret)
          ∧ Forall (λ d, d ≠ "") (WhitelistedDomains ret)) as [H3 H4]
    by (split; [exact H3|split; [exact H4|split; [exact H1|exact H2]]]).
  revert Hret. unfold loadSettings_rows.
  assert (Sorted String.le (WhitelistedDomains default_settings)
          ∧ Forall (λ d, d ≠ "") (WhitelistedDomains default_settings)) as H0.
  { split; constructor. }
  revert H0. generalize default_settings.
  induction (Sql.select_settings db) as [|kv rows IH]; intros ret0 H0.
  - by intros [= <-].
  - cbn [foldl]. rewrite option_bind_Some_l.
    destruct (loadSettings_row ret0 kv) as [ret1|] eqn:E; [|by rewrite foldl_None].
    apply IH. by eapply loadSettings_row_domains.
Qed.

End settings_shape_facts.

Lemma loadSettings_sorted_witness :
  ∃ s, loadSettings Sample.whitelisted_db = Ok s Sample.whitelisted_db
       ∧ Sorted String.le (WhitelistedDomains s)
       ∧ Forall (λ d, d ≠ "") (WhitelistedDomains s)
       ∧ Sorted String.le (WhitelistedUsers s)
       ∧ Forall (λ e, e ≠ "") (WhitelistedUsers s).
Proof.
  eexists. split; [vm_compute; reflexivity|].
  apply (loadSettings_sorted Sample.whitelisted_db). vm_compute. reflexivity.
Defined.

Section store_facts.

Lemma stored_rows_keys now s : s_key <$> stored_rows now s = stored_keys.
Proof. reflexivity. Qed.

Lemma filter_stored_rows now s :
  filter (λ r, s_key r ∉ stored_keys) (stored_rows now s) = [].
Proof.
  apply filter_none, Forall_forall. intros r Hr Hnot. apply Hnot.
  rewrite <- (stored_rows_keys now s). by apply list_elem_of_fmap_2.
Qed.

Lemma filter_filter_same {A} (P : A → Prop) `{!∀ x, Decision (P x)} (l : list A) :
  filter P (filter P l) = filter P l.
Proof. apply filter_all, Forall_forall. by intros x [? _]%list_elem_of_filter. Qed.

Lemma NoDup_fmap_filter {A B} (f : A → B) (P : A → Prop) `{!∀ x, Decision (P x)}
    (l : list A) :
  NoDup (f <$> l) → NoDup (f <$> filter P l).
Proof.
  induction l as [|x l IH]; [done|]. rewrite fmap_cons, NoDup_cons.
  intros [Hx Hl]. rewrite filter_cons. destruct (decide (P x)); [|by apply IH].
  rewrite fmap_cons. apply NoDup_cons. split; [|by apply IH].
  intros (y & E & [_ Hy]%list_elem_of_filter)%list_elem_of_fmap.
  apply Hx. rewrite E. by apply list_elem_of_fmap_2.
Qed.

(** X5: Of two [storeSettings] in a row only the second one counts: the
    database is the one that the second would have produced alone. *)
Theorem storeSettings_last_wins now1 now2 s1 s2 db :
  ∃ db1 db2,
    storeSettings now1 s1 db = Ok () db1
    ∧ storeSettings now2 s2 db1 = Ok () db2
    ∧ storeSettings now2 s2 db = Ok () db2.
Proof.
  eexists _, _. split; [apply storeSettings_run|].
  rewrite !storeSettings_run. split; [reflexivity|]. f_equal.
  unfold set_settings_table; cbn. f_equal.
  by rewrite filter_app, filter_stored_rows, app_nil_r, filter_filter_same.
Qed.

(** X6: [storeSettings] rewrites its four keys and nothing else: rows of other
    keys stay as they were and in their order, each of the four keys ends
    with exactly one row, distinct keys stay distinct, and the other four
    tables, the audit log among them, are not touched. *)
Theorem storeSettings_frame now s db :
  ∃ db',
    storeSettings now s db = Ok () db'
    ∧ filter (λ r, s_key r ∉ stored_keys) (settings_table db')
      = filter (λ r, s_key r ∉ stored_keys) (settings_table db)
    ∧ (∀ k, k ∈ stored_keys →
         length (filter (λ r, s_key r = k) (settings_table db')) = 1%nat)
    ∧ (NoDup (s_key <$> settings_table db) → NoDup (s_key <$> settings_table db'))
    ∧ certs db' = certs db ∧ totp db' = totp db
    ∧ events db' = events db ∧ whitelist db' = whitelist db.
Proof.
  eexists. split; [apply storeSettings_run|].
  cbn [settings_table set_settings_table certs totp events whitelist].
  split; [|split; [|split; [|done]]].
  - by rewrite filter_app, filter_stored_rows, app_nil_r, filter_filter_same.
  - intros k Hk. rewrite filter_app, list_filter_filter.
    rewrite filter_none by (apply Forall_forall; intros r _ [-> ?]; done).
    unfold stored_keys in Hk. cbn [app].
    repeat (apply elem_of_cons in Hk as [->|Hk]; [reflexivity|]).
    by apply elem_of_nil in Hk.
  - intros Hnd. rewrite fmap_app, stored_rows_keys. apply NoDup_app.
    split; [|split].
    + by apply NoDup_fmap_filter.
    + intros k (r & -> & [Hr _]%list_elem_of_filter)%list_elem_of_fmap. exact Hr.
    + apply (bool_decide_unpack _). vm_compute. exact I.
Qed.

Lemma loadSettings_final db : final_db (loadSettings db) = db.
Proof. rewrite loadSettings_unfold. by destruct (loadSettings_rows _). Qed.

(** X7: A [PUT /settings] whose body does not decode is answered 400 and then
    goes on: what the decoder left in [s] is stored all the same, and when
    the stored values load the handler sends a second answer, 200 with the
    snapshot just stored. *)
Theorem settingsHandler_PUT_undecoded now req db :
  sr_Method req = "PUT" → sr_err req = true →
  ∃ db',
    storeSettings now (sr_s req) db = Ok () db'
    ∧ final_db (settingsHandler now req db) = db'
    ∧ ∀ loaded, loadSettings db' = Ok loaded db' →
        settingsHandler now req db
        = Ok [(StatusBadRequest, None); (StatusOK, Some loaded)] db'.
Proof.
  intros HM He. eexists. split; [apply storeSettings_run|].
  unfold settingsHandler. rewrite HM, He.
  rewrite decide_False by done. rewrite decide_True by done.
  unfold mbind, M_bind. cbn beta iota zeta. rewrite storeSettings_run. split.
  - pose proof (loadSettings_final
                  (set_settings_table db
                     (filter (λ r, s_key r ∉ stored_keys) (settings_table db)
                      ++ stored_rows now (sr_s req)))) as HF.
    by destruct (loadSettings _).
  - intros loaded ->. reflexivity.
Qed.

End store_facts.

Lemma storeSettings_frame_witness :
  NoDup (s_key <$> settings_table Sample.whitelisted_db)
  ∧ ∃ db',
      storeSettings 100 Sample.vpn_settings Sample.whitelisted_db = Ok () db'
      ∧ filter (λ r, s_key r ∉ stored_keys) (settings_table db')
        = [{| s_key := "Motd"; s_value := "hello"; s_modified := 2 |}]
      ∧ NoDup (s_key <$> settings_table db')
      ∧ events db' = events Sample.whitelisted_db.
Proof.
  assert (NoDup (s_key <$> settings_table Sample.whitelisted_db)) as Hnd
    by (apply (bool_decide_unpack _); vm_compute; exact I).
  split; [exact Hnd|].
  destruct (storeSettings_frame 100 Sample.vpn_settings Sample.whitelisted_db)
    as (db' & H1 & H2 & _ & H4 & _ & _ & H7 & _).
  exists db'. split; [exact H1|]. split; [rewrite H2; reflexivity|].
  split; [exact (H4 Hnd) | exact H7].
Defined.

Lemma settingsHandler_PUT_undecoded_witness :
  let req := {| sr_Method := "PUT"; sr_s := Sample.vpn_settings; sr_err := true |} in
  ∃ db' loaded,
    storeSettings 100 Sample.vpn_settings Sample.whitelisted_db = Ok () db'
    ∧ settingsHandler 100 req Sample.whitelisted_db
      = Ok [(StatusBadRequest, None); (StatusOK, Some loaded)] db'
    ∧ ClientLimit loaded = 3.
Proof.
  intros req.
  destruct (settingsHandler_PUT_undecoded 100 req Sample.whitelisted_db)
    as (db' & H1 & _ & H3); [reflexivity | reflexivity |].
  exists db', (set_WhitelistedUsers Sample.vpn_settings
                 ["alice@example.com"; "bob@example.com"]).
  split; [exact H1|]. split; [|reflexivity].
  apply H3. vm_compute in H1. injection H1 as <-. vm_compute. reflexivity.
Defined.

(** ** The whitelist *)

Section whitelist_facts.

Lemma fmap_filter_comm {A B} (f : A → B) (P : B → Prop) `{!∀ y, Decision (P y)}
    (l : list A) :
  f <$> filter (λ x, P (f x)) l = filter P (f <$> l).
Proof.
  induction l as [|x l IH]; [done|]. rewrite fmap_cons, !filter_cons.
  destruct (decide (P (f x))); [rewrite fmap_cons|]; by rewrite IH.
Qed.

Lemma w_email_filter e (l : list whitelist_row) :
  w_email <$> filter (λ r, w_email r ≠ e) l = filter (λ x, x ≠ e) (w_email <$> l).
Proof. exact (fmap_filter_comm w_email (λ x, x ≠ e) l). Qed.

Lemma sorted_strings_eq (l1 l2 : list string) :
  Sorted String.le l1 → Sorted String.le l2 → l1 ≡ₚ l2 → l1 = l2.
Proof. intros. by apply (Sorted_unique String.le). Qed.

Lemma live_whitelist_whitelisted now e db :
  live_whitelist (whitelisted now e db)
  ≡ₚ filter (λ x, x ≠ "") (filter (λ x, x ≠ e) (w_email <$> whitelist db) ++ [e]).
Proof.
  unfold live_whitelist, Sql.select_whitelist, whitelisted.
  cbn [whitelist set_whitelist]. rewrite merge_sort_Permutation.
  by rewrite fmap_app, w_email_filter.
Qed.

Lemma live_whitelist_unlisted e db :
  live_whitelist (unlisted e db) = filter (λ x, x ≠ e) (live_whitelist db).
Proof.
  apply sorted_strings_eq.
  - apply live_whitelist_sorted.
  - apply Sorted_le_filter, live_whitelist_sorted.
  - unfold live_whitelist, Sql.select_whitelist, unlisted.
    cbn [whitelist set_whitelist]. rewrite !merge_sort_Permutation.
    rewrite w_email_filter.
    rewrite !list_filter_filter. apply reflexive_eq, list_filter_iff. tauto.
Qed.

Lemma loadSettings_after_whitelist db db' :
  settings_table db' = settings_table db → numeric_settings_ok db →
  ∃ s, loadSettings db' = Ok s db' ∧ WhitelistedUsers s = live_whitelist db'.
Proof.
  intros E Hok. destruct (loadSettings_total db') as [s Hs].
  { unfold numeric_settings_ok. by rewrite E. }
  exists s. split; [done|]. by apply loadSettings_users.
Qed.

Lemma whitelistHandler_PUT_run now req db e :
  Method req = "PUT" → extractSegment (Path req) 2 = e → e ≠ "" →
  numeric_settings_ok db →
  whitelistHandler now req db =
  Ok {| status := StatusOK; body := J_Users (live_whitelist (whitelisted now e db)) |}
     (whitelisted now e db).
Proof.
  intros HM HP He Hok. unfold whitelistHandler. rewrite HP, HM.
  rewrite decide_False by done. rewrite decide_True by done.
  rewrite decide_False by done.
  destruct (loadSettings_after_whitelist db (whitelisted now e db)) as (s & Hs & HU);
    [done..|].
  unfold mbind, M_bind, writeDatabaseByQuery, Sql.replace_whitelist. cbn beta iota.
  fold (whitelisted now e db). rewrite Hs. by rewrite HU.
Qed.

Lemma whitelistHandler_DELETE_run now req db e :
  Method req = "DELETE" → extractSegment (Path req) 2 = e → e ≠ "" →
  numeric_settings_ok db →
  whitelistHandler now req db =
  Ok {| status := StatusOK; body := J_Users (live_whitelist (unlisted e db)) |}
     (unlisted e db).
Proof.
  intros HM HP He Hok. unfold whitelistHandler. rewrite HP, HM.
  rewrite decide_False by done. rewrite decide_False by done.
  rewrite decide_True by done. rewrite decide_False by done.
  destruct (loadSettings_after_whitelist db (unlisted e db)) as (s & Hs & HU);
    [done..|].
  unfold mbind, M_bind, writeDatabaseByQuery, Sql.delete_whitelist. cbn beta iota.
  fold (unlisted e db). rewrite Hs. by rewrite HU.
Qed.

(** X8: [PUT /whitelist/<email>], the stored numbers being readable: the answer
    is 200 with the whitelist in ascending order; the email is in it, every
    email listed before is still in it and nothing else is; the table holds
    one row for the email; no audit event is written. *)
Theorem whitelist_PUT_adds now req db e :
  Method req = "PUT" → extractSegment (Path req) 2 = e → e ≠ "" →
  numeric_settings_ok db →
  ∃ users db',
    whitelistHandler now req db = Ok {| status := StatusOK; body := J_Users users |} db'
    ∧ Sorted String.le users
    ∧ (∀ x, x ∈ users ↔ x = e ∨ x ∈ live_whitelist db)
    ∧ length (filter (λ r, w_email r = e) (whitelist db')) = 1%nat
    ∧ events db' = events db.
Proof.
  intros HM HP He Hok. eexists _, _.
  split; [by apply whitelistHandler_PUT_run|].
  split; [apply live_whitelist_sorted|]. split; [|split; [|done]].
  - intros x. rewrite live_whitelist_whitelisted.
    unfold live_whitelist, Sql.select_whitelist.
    rewrite !list_elem_of_filter, elem_of_app, list_elem_of_filter.
    rewrite merge_sort_Permutation, list_elem_of_singleton.
    destruct (decide (x = e)) as [->|Hne]; intuition.
  - cbn [whitelist whitelisted set_whitelist].
    rewrite filter_app, list_filter_filter.
    rewrite filter_none by (apply Forall_forall; by intros r _ [? ?]).
    by rewrite filter_cons_True.
Qed.

(** X9: Adding the same email twice in a row is answered with the same list both
    times, and the second call leaves the emails of the table as the first
    one left them. *)
Theorem whitelist_PUT_idempotent now1 now2 req db e :
  Method req = "PUT" → extractSegment (Path req) 2 = e → e ≠ "" →
  numeric_settings_ok db →
  ∃ users db1 db2,
    whitelistHandler now1 req db = Ok {| status := StatusOK; body := J_Users users |} db1
    ∧ whitelistHandler now2 req db1
      = Ok {| status := StatusOK; body := J_Users users |} db2
    ∧ w_email <$> whitelist db2 = w_email <$> whitelist db1.
Proof.
  intros HM HP He Hok.
  assert (w_email <$> whitelist (whitelisted now2 e (whitelisted now1 e db))
          = w_email <$> whitelist (whitelisted now1 e db)) as E.
  { cbn [whitelist whitelisted set_whitelist].
    rewrite filter_app, filter_filter_same.
    rewrite filter_cons_False, filter_nil by (cbn; intros Hx; by apply Hx).
    by rewrite app_nil_r, !fmap_app. }
  eexists _, _, _. split; [by apply whitelistHandler_PUT_run|]. split; [|exact E].
  rewrite (whitelistHandler_PUT_run now2 req _ e) by done.
  do 3 f_equal. unfold live_whitelist, Sql.select_whitelist. by rewrite E.
Qed.

(** X10: [DELETE /whitelist/<email>], the stored numbers being readable: the
    answer is 200 with the former list without the email; an email that was
    not listed is no error and leaves the table as it was; no audit event is
    written. *)
Theorem whitelist_DELETE_removes now req db e :
  Method req = "DELETE" → extractSegment (Path req) 2 = e → e ≠ "" →
  numeric_settings_ok db →
  ∃ db',
    whitelistHandler now req db
    = Ok {| status := StatusOK;
            body := J_Users (filter (λ x, x ≠ e) (live_whitelist db)) |} db'
    ∧ events db' = events db
    ∧ (e ∉ w_email <$> whitelist db → db' = db).
Proof.
  intros HM HP He Hok. exists (unlisted e db).
  split; [|split; [done|]].
  - rewrite <- live_whitelist_unlisted. by apply whitelistHandler_DELETE_run.
  - intros Habs. unfold unlisted. rewrite filter_all; [by destruct db|].
    apply Forall_forall. intros r Hr E. apply Habs. rewrite <- E.
    by apply list_elem_of_fmap_2.
Qed.

(** X11: Adding an email and then removing it gives back the list of before,
    without that email. *)
Theorem whitelist_PUT_then_DELETE now put del db e :
  Method put = "PUT" → extractSegment (Path put) 2 = e →
  Method del = "DELETE" → extractSegment (Path del) 2 = e → e ≠ "" →
  numeric_settings_ok db →
  ∃ added db1 db2,
    whitelistHandler now put db = Ok {| status := StatusOK; body := J_Users added |} db1
    ∧ whitelistHandler now del db1
      = Ok {| status := StatusOK;
              body := J_Users (filter (λ x, x ≠ e) (live_whitelist db)) |} db2
    ∧ w_email <$> whitelist db2 = filter (λ x, x ≠ e) (w_email <$> whitelist db).
Proof.
  intros HM1 HP1 HM2 HP2 He Hok.
  assert (w_email <$> whitelist (unlisted e (whitelisted now e db))
          = filter (λ x, x ≠ e) (w_email <$> whitelist db)) as E.
  { cbn [whitelist whitelisted unlisted set_whitelist].
    rewrite filter_app, filter_filter_same.
    rewrite filter_cons_False, filter_nil by (cbn; intros Hx; by apply Hx).
    by rewrite app_nil_r, w_email_filter. }
  eexists _, _, _. split; [by apply whitelistHandler_PUT_run|]. split; [|exact E].
  rewrite (whitelistHandler_DELETE_run now del _ e) by done.
  do 3 f_equal. apply sorted_strings_eq.
  - apply live_whitelist_sorted.
  - apply Sorted_le_filter, live_whitelist_sorted.
  - unfold live_whitelist at 1. unfold Sql.select_whitelist. rewrite E.
    unfold live_whitelist, Sql.select_whitelist. rewrite !merge_sort_Permutation.
    rewrite !list_filter_filter. apply reflexive_eq, list_filter_iff. tauto.
Qed.

End whitelist_facts.

Lemma whitelist_PUT_adds_witness :
  let req := Sample.request "PUT" "/whitelist/carol@example.com" in
  ∃ users db',
    whitelistHandler 100 req Sample.whitelisted_db
    = Ok {| status := StatusOK; body := J_Users users |} db'
    ∧ Sorted String.le users
    ∧ (∀ x, x ∈ users ↔ x = "carol@example.com" ∨ x ∈ live_whitelist Sample.whitelisted_db)
    ∧ length (filter (λ r, w_email r = "carol@example.com") (whitelist db')) = 1%nat
    ∧ events db' = events Sample.whitelisted_db.
Proof.
  intros req.
  apply (whitelist_PUT_adds 100 req Sample.whitelisted_db "carol@example.com").
  - reflexivity.
  - vm_compute. reflexivity.
  - discriminate.
  - apply (bool_decide_unpack _). vm_compute. exact I.
Defined.

Lemma whitelist_PUT_idempotent_witness :
  let req := Sample.request "PUT" "/whitelist/carol@example.com" in
  ∃ users db1 db2,
    whitelistHandler 100 req Sample.whitelisted_db
    = Ok {| status := StatusOK; body := J_Users users |} db1
    ∧ whitelistHandler 200 req db1
      = Ok {| status := StatusOK; body := J_Users users |} db2
    ∧ w_email <$> whitelist db2 = w_email <$> whitelist db1.
Proof.
  intros req.
  apply (whitelist_PUT_idempotent 100 200 req Sample.whitelisted_db
           "carol@example.com").
  - reflexivity.
  - vm_compute. reflexivity.
  - discriminate.
  - apply (bool_decide_unpack _). vm_compute. exact I.
Defined.

Lemma whitelist_DELETE_removes_witness :
  let req := Sample.request "DELETE" "/whitelist/bob@example.com" in
  ∃ db',
    whitelistHandler 100 req Sample.whitelisted_db
    = Ok {| status := StatusOK; body := J_Users ["alice@example.com"] |} db'
    ∧ events db' = events Sample.whitelisted_db.
Proof.
  intros req.
  destruct (whitelist_DELETE_removes 100 req Sample.whitelisted_db "bob@example.com")
    as (db' & H1 & H2 & _).
  - reflexivity.
  - vm_compute. reflexivity.
  - discriminate.
  - apply (bool_decide_unpack _). vm_compute. exact I.
  - exists db'. split; [exact H1 | exact H2].
Defined.

Lemma whitelist_PUT_then_DELETE_witness :
  let put := Sample.request "PUT" "/whitelist/carol@example.com" in
  let del := Sample.request "DELETE" "/whitelist/carol@example.com" in
  ∃ added db1 db2,
    whitelistHandler 100 put Sample.whitelisted_db
    = Ok {| status := StatusOK; body := J_Users added |} db1
    ∧ whitelistHandler 100 del db1
      = Ok {| status := StatusOK;
              body := J_Users ["alice@example.com"; "bob@example.com"] |} db2
    ∧ w_email <$> whitelist db2 = ["bob@example.com"; "alice@example.com"].
Proof.
  intros put del.
  apply (whitelist_PUT_then_DELETE 100 put del Sample.whitelisted_db
           "carol@example.com").
  - reflexivity.
  - vm_compute. reflexivity.
  - reflexivity.
  - vm_compute. reflexivity.
  - discriminate.
  - apply (bool_decide_unpack _). vm_compute. exact I.
Defined.

(** ** The user overview *)

Section users_facts.

#[local] Instance by_uc_Email_total : Total by_uc_Email.
Proof. intros x y. unfold by_uc_Email. apply (total String.le). Qed.

Lemma count_distinct_NoDup (xs : list string) :
  NoDup xs → count_distinct xs = Z.of_nat (length xs).
Proof.
  intros Hnd. unfold count_distinct. f_equal. apply Permutation_length.
  apply NoDup_Permutation; [apply NoDup_remove_dups | done |].
  intros x. apply elem_of_remove_dups.
Qed.

(** X12: [GET /users] always answers 200 and changes nothing.  The list has one
    entry per email of the identity table and no other, in ascending order of
    email; certificates of emails without identity row are not counted
    anywhere.  With fingerprints distinct, the two numbers of an entry are
    the numbers of certificate rows of its email without and with a revoked
    time. *)
Theorem usersHandler_counts req db :
  ∃ users,
    usersHandler req db = Ok (StatusOK, users) db
    ∧ Sorted String.le (uc_Email <$> users)
    ∧ NoDup (uc_Email <$> users)
    ∧ (∀ e, e ∈ uc_Email <$> users ↔ e ∈ t_email <$> totp db)
    ∧ (NoDup (c_fingerprint <$> certs db) →
       ∀ u, u ∈ users →
         uc_ActiveCerts u
         = Z.of_nat (length (filter (λ c, c_email c = uc_Email u ∧ c_revoked c = None)
                               (certs db)))
         ∧ uc_RevokedCerts u
           = Z.of_nat (length (filter (λ c, c_email c = uc_Email u ∧ c_revoked c ≠ None)
                                 (certs db)))).
Proof.
  eexists. split; [reflexivity|].
  set (mk := λ row : string * Z * Z,
               {| uc_Email := row.1.1; uc_ActiveCerts := row.1.2;
                  uc_RevokedCerts := row.2 |}).
  assert (uc_Email <$> (mk <$> select_user_counts db)
          = remove_dups (t_email <$> totp db)) as Hemails.
  { unfold select_user_counts. rewrite <- !list_fmap_compose.
    rewrite <- (list_fmap_id (remove_dups _)) at 2. by apply list_fmap_ext. }
  unfold Go.sort_Slice.
  split; [|split; [|split]].
  - apply Sorted_fmap with (R1 := by_uc_Email); [by intros x y|].
    apply Sorted_merge_sort. apply _.
  - rewrite merge_sort_Permutation, Hemails. apply NoDup_remove_dups.
  - intros e. rewrite merge_sort_Permutation, Hemails. apply elem_of_remove_dups.
  - intros Hnd u. rewrite merge_sort_Permutation.
    intros (row & -> & Hrow)%list_elem_of_fmap.
    unfold select_user_counts in Hrow.
    apply list_elem_of_fmap in Hrow as (e & -> & _). cbn.
    rewrite !count_distinct_NoDup by by apply NoDup_fmap_filter.
    by rewrite !length_fmap.
Qed.

End users_facts.

Lemma usersHandler_counts_witness :
  ∃ users,
    usersHandler (Sample.request "GET" "/users") Sample.alice_db
    = Ok (StatusOK, users) Sample.alice_db
    ∧ users = [{| uc_Email := "alice@example.com"; uc_ActiveCerts := 1;
                  uc_RevokedCerts := 1 |}]
    ∧ ∀ u, u ∈ users →
        uc_ActiveCerts u
        = Z.of_nat (length (filter (λ c, c_email c = uc_Email u ∧ c_revoked c = None)
                              (certs Sample.alice_db))).
Proof.
  destruct (usersHandler_counts (Sample.request "GET" "/users") Sample.alice_db)
    as (users & H1 & _ & _ & _ & H5).
  exists users. split; [exact H1|]. split.
  - vm_compute in H1. injection H1 as <-. reflexivity.
  - intros u Hu. apply H5; [|exact Hu].
    apply (bool_decide_unpack _). vm_compute. exact I.
Defined.

(** ** Describing identities and certificates *)

Section describe_facts.
Context (W : World).

#[local] Instance by_Description_total : Total by_Description.
Proof. intros x y. unfold by_Description. apply (total String.le). Qed.

Lemma totp_filter_absent e db :
  e ∉ t_email <$> totp db → filter (λ r, t_email r = e) (totp db) = [].
Proof.
  intros Habs. apply filter_none, Forall_forall. intros r Hr E. apply Habs.
  rewrite <- E. by apply list_elem_of_fmap_2.
Qed.

Lemma userHandler_GET_run now req db e t :
  Method req = "GET" → extractSegment (Path req) 2 = e → e ≠ "" →
  filter (λ r, t_email r = e) (totp db) = [t] →
  userHandler W now req db =
  Ok {| status := StatusOK; body := J_user (described e (t_created t) db) |} db.
Proof.
  intros HM HP He Ht. unfold userHandler. rewrite HP, HM.
  rewrite decide_False by done. rewrite decide_True by done.
  unfold mbind, M_bind, Query, Sql.select_totp_created. by rewrite Ht.
Qed.

(** X13: [GET /user/<email>] never changes the database.  It answers 404 when the
    email has no identity row and 500 when it has several.  With exactly one
    it answers 200 with that row's creation time and the certificate rows of
    the email, each in exactly one of the two lists: those without a revoked
    time under ActiveCerts, the others under RevokedCerts, both in ascending
    order of description. *)
Theorem Describe_identity now req db e :
  Method req = "GET" → extractSegment (Path req) 2 = e → e ≠ "" →
  (e ∉ t_email <$> totp db →
     userHandler W now req db = Ok {| status := StatusNotFound; body := J_empty |} db)
  ∧ (∀ t1 t2 more, filter (λ r, t_email r = e) (totp db) = t1 :: t2 :: more →
       userHandler W now req db
       = Ok {| status := StatusInternalServerError; body := J_empty |} db)
  ∧ (∀ t, filter (λ r, t_email r = e) (totp db) = [t] →
       ∃ u, userHandler W now req db = Ok {| status := StatusOK; body := J_user u |} db
            ∧ Email u = e ∧ user_Created u = Some (t_created t)
            ∧ ActiveCerts u ++ RevokedCerts u ≡ₚ scanned_certs e db
            ∧ Forall (λ c, Revoked c = None) (ActiveCerts u)
            ∧ Forall (λ c, Revoked c ≠ None) (RevokedCerts u)
            ∧ Sorted by_Description (ActiveCerts u)
            ∧ Sorted by_Description (RevokedCerts u)).
Proof.
  intros HM HP He. split; [|split].
  - intros Habs. unfold userHandler. rewrite HP, HM.
    rewrite decide_False by done. rewrite decide_True by done.
    unfold mbind, M_bind, Query, Sql.select_totp_created.
    by rewrite totp_filter_absent.
  - intros t1 t2 more Ht. unfold userHandler. rewrite HP, HM.
    rewrite decide_False by done. rewrite decide_True by done.
    unfold mbind, M_bind, Query, Sql.select_totp_created. by rewrite Ht.
  - intros t Ht. exists (described e (t_created t) db).
    split; [by apply userHandler_GET_run|]. split; [done|]. split; [done|].
    cbn [ActiveCerts RevokedCerts described]. unfold Go.sort_Slice.
    split; [|split; [|split; [|split]]].
    + rewrite !merge_sort_Permutation. apply filter_app_complement.
    + rewrite merge_sort_Permutation. apply Forall_forall.
      by intros c [? _]%list_elem_of_filter.
    + rewrite merge_sort_Permutation. apply Forall_forall.
      by intros c [? _]%list_elem_of_filter.
    + apply Sorted_merge_sort. apply _.
    + apply Sorted_merge_sort. apply _.
Qed.

Lemma certs_one_rows t (cs : list certs_row) res0 :
  Forall (λ c, c_fingerprint c ≠ "") cs →
  foldl certs_one_row res0 ((λ c, (t, Some c)) <$> cs) =
  {| Email := Email res0;
     user_Created := match cs with [] => user_Created res0 | _ => Some (t_created t) end;
     ActiveCerts := ActiveCerts res0 ++ filter (λ c, Revoked c = None) (scan_cert <$> cs);
     RevokedCerts := RevokedCerts res0
                     ++ filter (λ c, Revoked c ≠ None) (scan_cert <$> cs) |}.
Proof.
  intros Hfp. revert res0. induction Hfp as [|c cs Hc _ IH]; intros res0.
  - cbn. rewrite !app_nil_r. by destruct res0.
  - cbn [fmap list_fmap foldl]. rewrite IH. unfold certs_one_row.
    cbn [fst snd scan_cert Fingerprint Revoked].
    rewrite decide_False by done. rewrite !filter_cons.
    cbn [scan_cert Revoked].
    destruct (c_revoked c) as [tr|] eqn:Er;
      repeat (first [rewrite decide_True by done
                    |rewrite decide_False by (try done; intros Hn; by apply Hn)]);
      cbn; rewrite <- app_assoc; by destruct cs.
Qed.

(** X14: [GET /certs/<email>]: an email without identity row is answered 404
    even when certificate rows still name it; for an email with one identity
    row whose certificates all have a fingerprint, the answer is the same as
    that of [GET /user/<email>]. *)
Theorem ListForUser_agrees_with_Describe now req req' db e :
  Method req = "GET" → extractSegment (Path req) 2 = e →
  Method req' = "GET" → extractSegment (Path req') 2 = e → e ≠ "" →
  (e ∉ t_email <$> totp db →
     certsHandler W now req db = Ok {| status := StatusNotFound; body := J_empty |} db)
  ∧ (∀ t, filter (λ r, t_email r = e) (totp db) = [t] →
       Forall (λ c, c_fingerprint c ≠ "") (Sql.select_certs_by_email e db) →
       certsHandler W now req db = userHandler W now req' db).
Proof.
  intros HM HP HM' HP' He. split.
  - intros Habs. unfold certsHandler. rewrite HP, HM.
    rewrite decide_True by done. rewrite decide_False by done.
    unfold mbind, M_bind, Query, Sql.select_totp_left_join_certs.
    by rewrite totp_filter_absent.
  - intros t Ht Hfp. rewrite (userHandler_GET_run now req' db e t) by done.
    assert (t_email t = e) as Et.
    { assert (t ∈ filter (λ r, t_email r = e) (totp db)) as Hin
        by (rewrite Ht; left).
      by apply list_elem_of_filter in Hin as [? _]. }
    unfold certsHandler. rewrite HP, HM.
    rewrite decide_True by done. rewrite decide_False by done.
    unfold mbind, M_bind, Query, Sql.select_totp_left_join_certs.
    rewrite Ht. cbn [mbind list_bind app]. rewrite app_nil_r.
    assert (filter (λ c, t_email t = c_email c) (certs db)
            = Sql.select_certs_by_email e db) as ->.
    { unfold Sql.select_certs_by_email. apply list_filter_iff.
      intros c. rewrite Et. split; congruence. }
    destruct (Sql.select_certs_by_email e db) as [|c cs] eqn:Ecs.
    + cbn. rewrite decide_False by done. unfold described, scanned_certs.
      by rewrite Ecs.
    + rewrite (certs_one_rows t (c :: cs)) by done.
      cbn [user_Created]. rewrite decide_False by done.
      unfold described, scanned_certs. by rewrite Ecs.
Qed.

End describe_facts.

Lemma Describe_identity_witness :
  userHandler Sample.W0 200 (Sample.request "GET" "/user/bob@example.com") Sample.alice_db
  = Ok {| status := StatusNotFound; body := J_empty |} Sample.alice_db
  ∧ ∃ u, userHandler Sample.W0 200 (Sample.request "GET" "/user/alice@example.com")
           Sample.alice_db
         = Ok {| status := StatusOK; body := J_user u |} Sample.alice_db
         ∧ Email u = "alice@example.com" ∧ user_Created u = Some 5
         ∧ ActiveCerts u ++ RevokedCerts u
           ≡ₚ scanned_certs "alice@example.com" Sample.alice_db
         ∧ Forall (λ c, Revoked c = None) (ActiveCerts u)
         ∧ Forall (λ c, Revoked c ≠ None) (RevokedCerts u)
         ∧ Sorted by_Description (ActiveCerts u)
         ∧ Sorted by_Description (RevokedCerts u).
Proof.
  split.
  - apply (Describe_identity Sample.W0 200
             (Sample.request "GET" "/user/bob@example.com") Sample.alice_db
             "bob@example.com");
      [reflexivity | vm_compute; reflexivity | discriminate
      | apply (bool_decide_unpack _); vm_compute; exact I].
  - apply (Describe_identity Sample.W0 200
             (Sample.request "GET" "/user/alice@example.com") Sample.alice_db
             "alice@example.com")
      with (t := {| t_email := "alice@example.com"; t_seed := "s"; t_created := 5;
                    t_updated := 5 |});
      [reflexivity | vm_compute; reflexivity | discriminate | reflexivity].
Defined.

Lemma ListForUser_agrees_with_Describe_witness :
  certsHandler Sample.W0 200 (Sample.request "GET" "/certs/alice@example.com")
    Sample.orphan_db
  = Ok {| status := StatusNotFound; body := J_empty |} Sample.orphan_db
  ∧ certsHandler Sample.W0 200 (Sample.request "GET" "/certs/alice@example.com")
      Sample.alice_db
    = userHandler Sample.W0 200 (Sample.request "GET" "/user/alice@example.com")
        Sample.alice_db.
Proof.
  split.
  - apply (ListForUser_agrees_with_Describe Sample.W0 200
             (Sample.request "GET" "/certs/alice@example.com")
             (Sample.request "GET" "/user/alice@example.com")
             Sample.orphan_db "alice@example.com");
      [reflexivity | vm_compute; reflexivity | reflexivity | vm_compute; reflexivity
      | discriminate | apply (bool_decide_unpack _); vm_compute; exact I].
  - apply (ListForUser_agrees_with_Describe Sample.W0 200
             (Sample.request "GET" "/certs/alice@example.com")
             (Sample.request "GET" "/user/alice@example.com")
             Sample.alice_db "alice@example.com")
      with (t := {| t_email := "alice@example.com"; t_seed := "s"; t_created := 5;
                    t_updated := 5 |});
      [reflexivity | vm_compute; reflexivity | reflexivity | vm_compute; reflexivity
      | discriminate | reflexivity
      | apply (bool_decide_unpack _); vm_compute; exact I].
Defined.

Section certificate_facts.

Lemma certs_filter_absent fp db :
  fp ∉ c_fingerprint <$> certs db → filter (λ r, c_fingerprint r = fp) (certs db) = [].
Proof.
  intros Habs. apply filter_none, Forall_forall. intros r Hr E. apply Habs.
  rewrite <- E. by apply list_elem_of_fmap_2.
Qed.

Lemma certHandler_GET_run now req db fp r :
  Method req = "GET" → extractSegment (Path req) 2 = fp → fp ≠ "" →
  Sql.select_cert fp db = [r] →
  certHandler now req db =
  Ok {| status := StatusOK; body := J_cert (c_email r) (scan_cert_revoked_first r) |} db.
Proof.
  intros HM HP Hfp Hr. unfold certHandler. rewrite HP, HM.
  rewrite decide_False by done. rewrite decide_True by done.
  unfold mbind, M_bind, Query. by rewrite Hr.
Qed.

(** X15: [GET /cert/<fingerprint>] never changes the database.  It answers 404
    for a fingerprint that no row has and 500 when several rows have it.
    With exactly one row it answers 200 with the owner, the fingerprint and
    the three times of that row; the description is the row's when the
    certificate is revoked and is empty when it is not. *)
Theorem Describe_certificate now req db fp :
  Method req = "GET" → extractSegment (Path req) 2 = fp → fp ≠ "" →
  (fp ∉ c_fingerprint <$> certs db →
     certHandler now req db = Ok {| status := StatusNotFound; body := J_empty |} db)
  ∧ (∀ r1 r2 more, Sql.select_cert fp db = r1 :: r2 :: more →
       certHandler now req db
       = Ok {| status := StatusInternalServerError; body := J_empty |} db)
  ∧ (∀ r, Sql.select_cert fp db = [r] →
       ∃ c, certHandler now req db
            = Ok {| status := StatusOK; body := J_cert (c_email r) c |} db
            ∧ Fingerprint c = fp
            ∧ Created c = Some (c_created r) ∧ Expires c = Some (c_expires r)
            ∧ Revoked c = c_revoked r
            ∧ (c_revoked r = None → Description c = "")
            ∧ (c_revoked r ≠ None → Description c = c_desc r)).
Proof.
  intros HM HP Hfp. split; [|split].
  - intros Habs. unfold certHandler. rewrite HP, HM.
    rewrite decide_False by done. rewrite decide_True by done.
    unfold mbind, M_bind, Query, Sql.select_cert. by rewrite certs_filter_absent.
  - intros r1 r2 more Hr. unfold certHandler. rewrite HP, HM.
    rewrite decide_False by done. rewrite decide_True by done.
    unfold mbind, M_bind, Query. by rewrite Hr.
  - intros r Hr. exists (scan_cert_revoked_first r).
    split; [by apply (certHandler_GET_run now req db fp r)|].
    assert (r ∈ Sql.select_cert fp db) as Hin by (rewrite Hr; left).
    apply list_elem_of_filter in Hin as [Efp _].
    cbn. repeat split; try done; by destruct (c_revoked r).
Qed.

(** X16: [DELETE /cert/<fingerprint>] for a fingerprint that no row has is
    answered 200 and changes nothing; in particular it writes no audit
    event. *)
Theorem Revoke_unknown_fingerprint now req db fp :
  Method req = "DELETE" → extractSegment (Path req) 2 = fp → fp ≠ "" →
  fp ∉ c_fingerprint <$> certs db →
  certHandler now req db = Ok {| status := StatusOK; body := J_empty |} db.
Proof.
  intros HM HP Hfp Habs. unfold certHandler. rewrite HP, HM.
  rewrite decide_False by done. rewrite decide_False by done.
  rewrite decide_True by done.
  unfold mbind, M_bind, Query, Sql.select_cert_email.
  by rewrite certs_filter_absent.
Qed.

Lemma filter_fmap_fixed {A} (P : A → Prop) `{!∀ x, Decision (P x)} (f : A → A)
    (l : list A) :
  (∀ x, P x → f x = x) → (∀ x, ¬ P x → ¬ P (f x)) →
  filter P (f <$> l) = filter P l.
Proof.
  intros Hfix Hnot. induction l as [|x l IH]; [done|]. cbn [fmap list_fmap].
  rewrite !filter_cons. destruct (decide (P x)) as [HP|HP].
  - rewrite (Hfix x HP). rewrite decide_True by done. by rewrite IH.
  - rewrite decide_False by by apply Hnot. done.
Qed.

(** X17: Revoking and then describing, fingerprints being distinct: after [DELETE
    /cert/<fp>] of a known certificate, [GET /cert/<fp>] shows it revoked at
    the time of the call, with its owner and description, and the [GET] of
    any other fingerprint is answered as it was before. *)
Theorem Revoke_then_Describe now now' del get db fp r :
  NoDup (c_fingerprint <$> certs db) →
  r ∈ certs db → c_fingerprint r = fp → fp ≠ "" →
  Method del = "DELETE" → extractSegment (Path del) 2 = fp →
  Method get = "GET" →
  ∃ db',
    certHandler now del db = Ok {| status := StatusOK; body := J_empty |} db'
    ∧ (extractSegment (Path get) 2 = fp →
       ∃ c, certHandler now' get db'
            = Ok {| status := StatusOK; body := J_cert (c_email r) c |} db'
            ∧ Fingerprint c = fp ∧ Revoked c = Some now
            ∧ Description c = c_desc r)
    ∧ (extractSegment (Path get) 2 ≠ fp →
       ∃ resp, certHandler now' get db = Ok resp db
               ∧ certHandler now' get db' = Ok resp db').
Proof.
  intros Hnd Hr Efp Hfp HMd HPd HMg.
  assert (Sql.select_cert fp db = [r]) as Hsel.
  { unfold Sql.select_cert. rewrite <- Efp. by apply (filter_key_NoDup c_fingerprint). }
  exists (revoked_db now fp (c_email r) db). split; [|split].
  - apply (certHandler_DELETE_run now del db fp (c_email r) []); [done..|].
    unfold Sql.select_cert_email. unfold Sql.select_cert in Hsel. by rewrite Hsel.
  - intros HPg. exists (scan_cert_revoked_first (Sql.revoke_row now r)).
    split; [|by rewrite <- Efp].
    rewrite (certHandler_GET_run now' get _ fp (Sql.revoke_row now r)); [done..|].
    unfold Sql.select_cert. cbn [certs revoked_db].
    rewrite filter_fmap_stable.
    2:{ intros x. by destruct (decide (c_fingerprint x = fp)). }
    unfold Sql.select_cert in Hsel. rewrite Hsel. cbn.
    by rewrite decide_True.
  - intros HPg. set (fp' := extractSegment (Path get) 2) in *.
    assert (Sql.select_cert fp' (revoked_db now fp (c_email r) db)
            = Sql.select_cert fp' db) as Esel.
    { unfold Sql.select_cert. cbn [certs revoked_db]. apply filter_fmap_fixed.
      - intros x Hx. rewrite decide_False; [done|]. congruence.
      - intros x Hx. by destruct (decide (c_fingerprint x = fp)). }
    unfold certHandler. fold fp'. rewrite HMg.
    destruct (decide (fp' = "")); [by eexists|].
    rewrite decide_True by done. unfold mbind, M_bind, Query. rewrite Esel.
    destruct (Sql.select_cert fp' db) as [|r1 [|r2 more]]; by eexists.
Qed.

End certificate_facts.

Lemma Describe_certificate_witness :
  certHandler 200 (Sample.request "GET" "/cert/f7") Sample.alice_db
  = Ok {| status := StatusNotFound; body := J_empty |} Sample.alice_db
  ∧ (∃ c, certHandler 200 (Sample.request "GET" "/cert/f1") Sample.alice_db
          = Ok {| status := StatusOK; body := J_cert "alice@example.com" c |}
               Sample.alice_db
          ∧ Revoked c = None ∧ Description c = "")
  ∧ (∃ c, certHandler 200 (Sample.request "GET" "/cert/f2") Sample.alice_db
          = Ok {| status := StatusOK; body := J_cert "alice@example.com" c |}
               Sample.alice_db
          ∧ Revoked c = Some 50 ∧ Description c = "phone").
Proof.
  split; [|split].
  - apply (Describe_certificate 200 (Sample.request "GET" "/cert/f7") Sample.alice_db
             "f7");
      [reflexivity | vm_compute; reflexivity | discriminate
      | apply (bool_decide_unpack _); vm_compute; exact I].
  - destruct (Describe_certificate 200 (Sample.request "GET" "/cert/f1")
                Sample.alice_db "f1") as (_ & _ & H);
      [reflexivity | vm_compute; reflexivity | discriminate |].
    destruct (H {| c_email := "alice@example.com"; c_fingerprint := "f1";
                   c_desc := "laptop"; c_created := 10; c_expires := 100;
                   c_revoked := None |})
      as (c & H1 & _ & _ & _ & H5 & H6 & _); [reflexivity|].
    exists c. split; [exact H1|]. split; [exact H5 | apply H6; reflexivity].
  - destruct (Describe_certificate 200 (Sample.request "GET" "/cert/f2")
                Sample.alice_db "f2") as (_ & _ & H);
      [reflexivity | vm_compute; reflexivity | discriminate |].
    destruct (H {| c_email := "alice@example.com"; c_fingerprint := "f2";
                   c_desc := "phone"; c_created := 11; c_expires := 100;
                   c_revoked := Some 50 |})
      as (c & H1 & _ & _ & _ & H5 & _ & H7); [reflexivity|].
    exists c. split; [exact H1|]. split; [exact H5 | apply H7; discriminate].
Defined.

Lemma Revoke_unknown_fingerprint_witness :
  certHandler 200 (Sample.request "DELETE" "/cert/f7") Sample.alice_db
  = Ok {| status := StatusOK; body := J_empty |} Sample.alice_db.
Proof.
  apply (Revoke_unknown_fingerprint 200 (Sample.request "DELETE" "/cert/f7")
           Sample.alice_db "f7");
    [reflexivity | vm_compute; reflexivity | discriminate
    | apply (bool_decide_unpack _); vm_compute; exact I].
Defined.

Lemma Revoke_then_Describe_witness :
  ∃ db',
    certHandler 200 (Sample.request "DELETE" "/cert/f1") Sample.alice_db
    = Ok {| status := StatusOK; body := J_empty |} db'
    ∧ ∃ c, certHandler 300 (Sample.request "GET" "/cert/f1") db'
           = Ok {| status := StatusOK; body := J_cert "alice@example.com" c |} db'
           ∧ Fingerprint c = "f1" ∧ Revoked c = Some 200
           ∧ Description c = "laptop".
Proof.
  destruct (Revoke_then_Describe 200 300 (Sample.request "DELETE" "/cert/f1")
              (Sample.request "GET" "/cert/f1") Sample.alice_db "f1"
              {| c_email := "alice@example.com"; c_fingerprint := "f1";
                 c_desc := "laptop"; c_created := 10; c_expires := 100;
                 c_revoked := None |})
    as (db' & H1 & H2 & _).
  - apply (bool_decide_unpack _). vm_compute. exact I.
  - simpl. constructor.
  - reflexivity.
  - discriminate.
  - reflexivity.
  - vm_compute. reflexivity.
  - reflexivity.
  - exists db'. split; [exact H1|]. apply H2. vm_compute. reflexivity.
Defined.

(** ** Clearing and paging the audit log *)

Section more_events_facts.
Context (W : World).

(** X18: [DELETE /events?before=all] returns every event, newest first, empties
    the log and leaves one "events log reset" event whose value is the
    number of events that were there; the other tables are not touched. *)
Theorem Clear_all_is_complete now req db :
  Method req = "DELETE" → ParseForm req = Some "all" →
  ∃ L db',
    eventsHandler W now req db = Ok {| status := StatusOK; body := J_Events L |} db'
    ∧ L ≡ₚ scan_event <$> events db ∧ newest_first L
    ∧ events db' = [{| e_event := "events log reset"; e_email := "";
                       e_value := Go.FormatInt (Z.of_nat (length (events db)))
                                  +:+ " events cleared";
                       e_ts := now |}]
    ∧ certs db' = certs db ∧ totp db' = totp db
    ∧ settings_table db' = settings_table db ∧ whitelist db' = whitelist db.
Proof.
  intros HM HF. rewrite (eventsHandler_unfold W now req db "all" HF).
  rewrite decide_False by done. rewrite decide_True by done.
  rewrite events_respond_run, HM. rewrite decide_True by done.
  assert (listing (Sql.select_events_all db) ≡ₚ scan_event <$> events db) as HP.
  { rewrite listing_perm. unfold Sql.select_events_all.
    by rewrite merge_sort_Permutation. }
  eexists _, _. split; [reflexivity|]. split; [exact HP|].
  split; [apply listing_sorted|]. split; [|done].
  cbn [events set_events]. unfold reset_event. by rewrite HP, length_fmap.
Qed.

(** X19: A [before] that is neither empty nor "all" nor a timestamp is answered
    400 whatever the method: a [DELETE /events] with such a value deletes
    nothing. *)
Theorem malformed_cursor_changes_nothing now req db before :
  ParseForm req = Some before → before ≠ "" → before ≠ "all" →
  time_Parse W before = None →
  eventsHandler W now req db = Ok {| status := StatusBadRequest; body := J_empty |} db.
Proof.
  intros HF H1 H2 HT. rewrite (eventsHandler_unfold W now req db before HF).
  rewrite decide_False by done. rewrite decide_False by done. by rewrite HT.
Qed.

Lemma newest_first_last (L : list event) x z :
  newest_first (L ++ [z]) → x ∈ L ++ [z] → Timestamp z ≤ Timestamp x.
Proof.
  intros HS [Hx | ->%list_elem_of_singleton]%elem_of_app; [|lia].
  exact (StronglySorted_app_1_elem_of _ _ _ _ _ HS Hx ltac:(left)).
Qed.

(** X20: Paging: when the first page (no [before]) ends with an event of time
    [T] and the next request passes a [before] that parses to [T], the second
    page holds only events strictly older than every event of the first, so
    the two pages one after the other are still newest first. *)
Theorem next_page_is_older now req1 req2 db before T :
  Method req1 = "GET" → ParseForm req1 = Some "" →
  Method req2 = "GET" → ParseForm req2 = Some before →
  before ≠ "" → before ≠ "all" → time_Parse W before = Some T →
  ∃ L1 L2,
    eventsHandler W now req1 db = Ok {| status := StatusOK; body := J_Events L1 |} db
    ∧ eventsHandler W now req2 db = Ok {| status := StatusOK; body := J_Events L2 |} db
    ∧ ((∃ z, last L1 = Some z ∧ Timestamp z = T) →
       (∀ x y, x ∈ L1 → y ∈ L2 → Timestamp y < Timestamp x)
       ∧ newest_first (L1 ++ L2)).
Proof.
  intros HM1 HF1 HM2 HF2 Hb1 Hb2 HT.
  rewrite (eventsHandler_unfold W now req1 db "" HF1).
  rewrite (eventsHandler_unfold W now req2 db before HF2).
  rewrite decide_True by done. rewrite decide_False by done.
  rewrite decide_False by done. rewrite HT, !events_respond_run, HM1, HM2.
  rewrite decide_False by done.
  set (L1 := listing (Sql.select_events db)).
  set (L2 := listing (Sql.select_events_before T db)).
  exists L1, L2. split; [done|]. split; [done|].
  intros (z & Hlast & Hz).
  assert (∀ y, y ∈ L2 → Timestamp y < T) as Hold.
  { intros y. unfold L2. rewrite listing_perm. unfold Sql.select_events_before.
    intros (r & -> & Hr)%list_elem_of_fmap.
    assert (r ∈ merge_sort Sql.ts_desc (filter (λ r, e_ts r < T) (events db))) as Hr'.
    { rewrite <- (take_drop 25). apply elem_of_app. by left. }
    rewrite merge_sort_Permutation in Hr'.
    by apply list_elem_of_filter in Hr' as [? _]. }
  assert (∀ x, x ∈ L1 → T ≤ Timestamp x) as Hnew.
  { intros x Hx. apply last_Some in Hlast as [L' EL].
    pose proof (listing_sorted (Sql.select_events db)) as HS. fold L1 in HS.
    rewrite EL in HS, Hx. rewrite <- Hz. by eapply newest_first_last. }
  split.
  - intros x y Hx Hy. specialize (Hnew x Hx). specialize (Hold y Hy). lia.
  - apply StronglySorted_app_2; [|apply listing_sorted..].
    intros x y Hx Hy. unfold by_Timestamp_desc.
    specialize (Hnew x Hx). specialize (Hold y Hy). lia.
Qed.

End more_events_facts.

Lemma Clear_all_is_complete_witness :
  ∃ L db',
    eventsHandler Sample.W0 200 (Sample.events_request "DELETE" "all") Sample.busy_db
    = Ok {| status := StatusOK; body := J_Events L |} db'
    ∧ length L = 26%nat
    ∧ events db' = [{| e_event := "events log reset"; e_email := "";
                       e_value := "26 events cleared"; e_ts := 200 |}].
Proof.
  destruct (Clear_all_is_complete Sample.W0 200 (Sample.events_request "DELETE" "all")
              Sample.busy_db) as (L & db' & H1 & H2 & _ & H4 & _);
    [reflexivity | reflexivity |].
  exists L, db'. split; [exact H1|]. split; [|exact H4].
  rewrite (Permutation_length H2). reflexivity.
Defined.

Lemma malformed_cursor_changes_nothing_witness :
  eventsHandler Sample.W0 200 (Sample.events_request "DELETE" "yesterday") Sample.busy_db
  = Ok {| status := StatusBadRequest; body := J_empty |} Sample.busy_db.
Proof.
  apply (malformed_cursor_changes_nothing Sample.W0 200
           (Sample.events_request "DELETE" "yesterday") Sample.busy_db "yesterday");
    [reflexivity | discriminate | discriminate | reflexivity].
Defined.

Lemma next_page_is_older_witness :
  ∃ L1 L2,
    eventsHandler Sample2.W1 200 (Sample.events_request "GET" "") Sample.busy_db
    = Ok {| status := StatusOK; body := J_Events L1 |} Sample.busy_db
    ∧ eventsHandler Sample2.W1 200
        (Sample.events_request "GET" "1970-01-01T00:00:02Z") Sample.busy_db
      = Ok {| status := StatusOK; body := J_Events L2 |} Sample.busy_db
    ∧ length L1 = 25%nat ∧ length L2 = 1%nat
    ∧ (∀ x y, x ∈ L1 → y ∈ L2 → Timestamp y < Timestamp x)
    ∧ newest_first (L1 ++ L2).
Proof.
  destruct (next_page_is_older Sample2.W1 200 (Sample.events_request "GET" "")
              (Sample.events_request "GET" "1970-01-01T00:00:02Z") Sample.busy_db
              "1970-01-01T00:00:02Z" 2) as (L1 & L2 & H1 & H2 & H3);
    [reflexivity | reflexivity | reflexivity | reflexivity
    | discriminate | discriminate | reflexivity |].
  exists L1, L2. split; [exact H1|]. split; [exact H2|].
  vm_compute in H1. injection H1 as <-.
  vm_compute in H2. injection H2 as <-.
  split; [reflexivity|]. split; [reflexivity|].
  apply H3. eexists. split; reflexivity.
Defined.

(** ** The audit log only grows *)

Section audit_facts.
Context (W : World) (now : Time).

Lemma keeps_ret {A} (a : A) : keeps_audit_log (mret a).
Proof. intros db. reflexivity. Qed.

Lemma keeps_panic {A} : keeps_audit_log (@panic A).
Proof. intros db. reflexivity. Qed.

Lemma keeps_Query {A} (q : DB → A) : keeps_audit_log (Query q).
Proof. intros db. reflexivity. Qed.

Lemma keeps_must {A} (r : option A) : keeps_audit_log (must r).
Proof. destruct r; intros db; reflexivity. Qed.

Lemma keeps_SendJSON st object : keeps_audit_log (SendJSON st object).
Proof. intros db. reflexivity. Qed.

Lemma keeps_SendJSON_of {B} st (object : B) : keeps_audit_log (SendJSON_of st object).
Proof. intros db. reflexivity. Qed.

Lemma keeps_bind {A B} (m : M A) (f : A → M B) :
  keeps_audit_log m → (∀ a, keeps_audit_log (f a)) → keeps_audit_log (m ≫= f).
Proof.
  intros Hm Hf db. unfold mbind, M_bind. specialize (Hm db).
  destruct (m db) as [a db1|db1]; [|exact Hm].
  cbn in Hm. etrans; [exact Hm|]. apply Hf.
Qed.

Lemma keeps_write (stmt : DB → option DB) :
  (∀ db db', stmt db = Some db' → events db `prefix_of` events db') →
  keeps_audit_log (writeDatabaseByQuery stmt).
Proof.
  intros H db. unfold writeDatabaseByQuery.
  destruct (stmt db) as [db'|] eqn:E; [by apply H | reflexivity].
Qed.

Lemma keeps_loadSettings : keeps_audit_log loadSettings.
Proof. intros db. by rewrite loadSettings_final. Qed.

Lemma keeps_storeSettings s : keeps_audit_log (storeSettings now s).
Proof. intros db. by rewrite storeSettings_run. Qed.

Lemma keeps_makeCertSerial : keeps_audit_log (makeCertSerial W).
Proof. apply keeps_bind; [apply keeps_must | intros; apply keeps_ret]. Qed.

Ltac statement :=
  let db := fresh "db" in let db' := fresh "db'" in let H := fresh "H" in
  intros db db' H;
  unfold Sql.replace_totp, Sql.insert_event, Sql.revoke_by_email, Sql.delete_totp,
    Sql.insert_cert, Sql.revoke_by_fingerprint, Sql.replace_whitelist,
    Sql.delete_whitelist in H;
  repeat case_match; simplify_eq; cbn;
  first [reflexivity | by apply prefix_app_r].

Ltac audit :=
  repeat first
    [ apply keeps_ret | apply keeps_panic | apply keeps_Query | apply keeps_must
    | apply keeps_SendJSON | apply keeps_SendJSON_of | apply keeps_loadSettings
    | apply keeps_storeSettings | apply keeps_makeCertSerial
    | apply keeps_write; statement
    | apply keeps_bind; [|intros ?]
    | case_decide | case_match ].

(** X21: No handler but [eventsHandler] ever removes or rewrites an audit event:
    whatever the request, and whether the handler returns or panics, the log
    it leaves starts with the log it found.  [eventsHandler] does the same
    for every method other than [DELETE]. *)
Theorem audit_log_only_grows req sreq :
  keeps_audit_log (usersHandler req)
  ∧ keeps_audit_log (userHandler W now req)
  ∧ keeps_audit_log (certsHandler W now req)
  ∧ keeps_audit_log (certHandler now req)
  ∧ keeps_audit_log (settingsHandler now sreq)
  ∧ keeps_audit_log (whitelistHandler now req)
  ∧ (Method req ≠ "DELETE" → keeps_audit_log (eventsHandler W now req)).
Proof.
  repeat split.
  - unfold usersHandler. audit.
  - unfold userHandler. cbn zeta. audit.
  - unfold certsHandler. cbn zeta. audit.
  - unfold certHandler. cbn zeta. audit.
  - unfold settingsHandler. cbn zeta. audit.
  - unfold whitelistHandler. cbn zeta. audit.
  - intros HM. unfold eventsHandler, events_respond. audit.
Qed.

End audit_facts.

Lemma audit_log_only_grows_witness :
  let req := Sample.request "DELETE" "/user/alice@example.com" in
  events Sample.alice_db
    `prefix_of` events (final_db (userHandler Sample.W0 200 req Sample.alice_db))
  ∧ events Sample.busy_db
      `prefix_of` events (final_db (eventsHandler Sample.W0 200
                                      (Sample.events_request "GET" "all")
                                      Sample.busy_db)).
Proof.
  intros req. split.
  - destruct (audit_log_only_grows Sample.W0 200 req
                {| sr_Method := "GET"; sr_s := default_settings; sr_err := false |})
      as (_ & H & _).
    exact (H Sample.alice_db).
  - destruct (audit_log_only_grows Sample.W0 200 (Sample.events_request "GET" "all")
                {| sr_Method := "GET"; sr_s := default_settings; sr_err := false |})
      as (_ & _ & _ & _ & _ & _ & H).
    apply H. discriminate.
Defined.

(** ** Serial numbers *)

(** X22: [makeCertSerial] leaves the database alone, and whenever it returns, its
    result read as a base-16 number is the number that was drawn: the check
    that follows it in [POST /certs/<email>] cannot fail. *)
Theorem makeCertSerial_parses W db :
  match makeCertSerial W db with
  | Ok hex db' =>
      db' = db
      ∧ ∃ n, rand_Int W (N.shiftl 1 128) = Some n
             ∧ hex = Go.Sprintf_x n ∧ Go.SetString16 hex = Some (Z.of_N n)
  | Panics db' => db' = db ∧ rand_Int W (N.shiftl 1 128) = None
  end.
Proof.
  unfold makeCertSerial, mbind, M_bind, must.
  destruct (rand_Int W (N.shiftl 1 128)) as [n|]; cbn; [|done].
  split; [done|]. exists n. by rewrite SetString16_Sprintf_x.
Qed.

Lemma makeCertSerial_parses_db W db hex db' :
  makeCertSerial W db = Ok hex db' → db' = db.
Proof.
  unfold makeCertSerial, mbind, M_bind, must.
  destruct (rand_Int W (N.shiftl 1 128)); cbn; [|done]. by intros [= _ ->].
Qed.

(** ** Issuing *)

Section more_issue_facts.
Context (W : World).

(** X23: [POST /certs/<email>] is answered 400, and changes nothing, when the
    path has no email, when the body does not decode, when the body names
    another email, and when the description is empty. *)
Theorem Issue_rejects_malformed now req db :
  Method req = "POST" →
  (extractSegment (Path req) 2 = ""
   ∨ PopulateFromBody req = None
   ∨ ∃ b, PopulateFromBody req = Some b
          ∧ (body_Email b ≠ extractSegment (Path req) 2 ∨ body_Description b = "")) →
  certsHandler W now req db = Ok {| status := StatusBadRequest; body := J_empty |} db.
Proof.
  intros HM H. unfold certsHandler. rewrite HM.
  rewrite decide_False by done. rewrite decide_True by done.
  destruct (decide (extractSegment (Path req) 2 = "")) as [|Hne]; [done|].
  destruct H as [H | [H | (b & Hb & H)]]; [done | by rewrite H |].
  rewrite Hb. destruct H as [H|H].
  - rewrite decide_True by congruence. done.
  - destruct (decide (extractSegment (Path req) 2 ≠ body_Email b)); [done|].
    by rewrite decide_True.
Qed.

Lemma bind_Ok_inv {A B} (m : M A) (f : A → M B) db b db' :
  (m ≫= f) db = Ok b db' → ∃ a db1, m db = Ok a db1 ∧ f a db1 = Ok b db'.
Proof.
  unfold mbind, M_bind. destruct (m db) as [a db1|]; [|done]. eauto.
Qed.

Lemma must_Ok_inv {A} (r : option A) db a db' :
  must r db = Ok a db' → r = Some a ∧ db' = db.
Proof. destruct r; cbn; [|done]. by intros [= -> ->]. Qed.

Lemma write_Ok_inv stmt db u db' :
  writeDatabaseByQuery stmt db = Ok u db' → stmt db = Some db'.
Proof.
  unfold writeDatabaseByQuery. destruct u, (stmt db); [|done]. by intros [= ->].
Qed.

Lemma loadSettings_Ok_same db s db' : loadSettings db = Ok s db' → db' = db.
Proof. intros H. pose proof (loadSettings_final db) as HF. by rewrite H in HF. Qed.

(** What a 201 of [POST /certs/<email>] guarantees *)
Lemma certsHandler_POST_Created_inv now req db resp db' :
  Method req = "POST" →
  certsHandler W now req db = Ok resp db' → status resp = StatusCreated →
  ∃ b fp expires,
    PopulateFromBody req = Some b
    ∧ body_Email b = extractSegment (Path req) 2
    ∧ body_Email b ≠ "" ∧ body_Description b ≠ ""
    ∧ length (filter (λ r, t_email r = body_Email b) (totp db)) = 1%nat
    ∧ (fp ∉ c_fingerprint <$> certs db)
    ∧ db' = set_events
              (set_certs db
                 (certs db ++ [issued_cert now (body_Email b) fp
                                 (body_Description b) expires]))
              (events db ++ [issued_event now (body_Email b) fp (body_Description b)]).
Proof.
  intros HM. unfold certsHandler. rewrite HM.
  rewrite decide_False by done. rewrite decide_True by done.
  set (email := extractSegment (Path req) 2).
  destruct (decide (email = "")) as [|He]; [by intros [= <- <-]|].
  destruct (PopulateFromBody req) as [b|]; [|by intros [= <- <-]].
  destruct (decide (email ≠ body_Email b)) as [|Eb]; [by intros [= <- <-]|].
  apply dec_stable in Eb.
  destruct (decide (body_Description b = "")) as [|Hd]; [by intros [= <- <-]|].
  intros (rows & db1 & [= <- <-] & H)%bind_Ok_inv Hst.
  unfold Sql.select_totp_email in H.
  destruct (filter (λ r, t_email r = email) (totp db)) as [|t1 [|t2 more]] eqn:Et;
    cbn [fmap list_fmap] in H; [by injection H as <- <- | | done].
  apply bind_Ok_inv in H as (hex & db1 & H1 & H).
  pose proof (makeCertSerial_parses_db W db hex db1 H1) as ->.
  apply bind_Ok_inv in H as (serial & db1 & [_ ->]%must_Ok_inv & H).
  apply bind_Ok_inv in H as (authority & db1 & [_ ->]%must_Ok_inv & H).
  apply bind_Ok_inv in H as (s & db1 & ->%loadSettings_Ok_same & H).
  apply bind_Ok_inv in H as (kp & db1 & [_ ->]%must_Ok_inv & H).
  apply bind_Ok_inv in H as (fp & db1 & [_ ->]%must_Ok_inv & H).
  apply bind_Ok_inv in H as (pem & db1 & [_ ->]%must_Ok_inv & H).
  apply bind_Ok_inv in H as (tlsauth & db1 & [_ ->]%must_Ok_inv & H).
  apply bind_Ok_inv in H as (t & db1 & [_ ->]%must_Ok_inv & H).
  apply bind_Ok_inv in H as (ovpn & db1 & [_ ->]%must_Ok_inv & H).
  apply bind_Ok_inv in H as ([] & db1 & Hc%write_Ok_inv & H).
  apply bind_Ok_inv in H as ([] & db2 & Hev%write_Ok_inv & H).
  injection H as _ <-.
  unfold Sql.insert_cert in Hc.
  destruct (sqlite_date W now (IssuedCertDuration s)) as [expires|]; [|done].
  destruct (decide (fp ∈ c_fingerprint <$> certs db)) as [|Hfresh]; [done|].
  injection Hc as <-. injection Hev as <-.
  exists b, fp, expires. rewrite <- Eb. fold email. rewrite Et.
  by repeat split.
Qed.

(** X24: Every 201 of [POST /certs/<email>] is backed by the database: it has
    appended one certificate row, owned by the email, with the description
    of the body, not revoked, under a fingerprint that was not there before,
    and one "certificate issued" event; and a following [GET /user/<email>]
    is answered 200 with that certificate among the active ones. *)
Theorem Created_is_persisted_and_listed now now' post get db resp db' e :
  Method post = "POST" → extractSegment (Path post) 2 = e →
  certsHandler W now post db = Ok resp db' → status resp = StatusCreated →
  Method get = "GET" → extractSegment (Path get) 2 = e →
  ∃ fp desc expires u,
    certs db' = certs db ++ [issued_cert now e fp desc expires]
    ∧ events db' = events db ++ [issued_event now e fp desc]
    ∧ desc ≠ "" ∧ (fp ∉ c_fingerprint <$> certs db)
    ∧ userHandler W now' get db' = Ok {| status := StatusOK; body := J_user u |} db'
    ∧ scan_cert (issued_cert now e fp desc expires) ∈ ActiveCerts u.
Proof.
  intros HMp HPp Hrun Hst HMg HPg.
  destruct (certsHandler_POST_Created_inv now post db resp db' HMp Hrun Hst)
    as (b & fp & expires & _ & Eb & He & Hd & Hone & Hfresh & ->).
  rewrite HPp in Eb. rewrite Eb in *.
  destruct (filter (λ r, t_email r = e) (totp db)) as [|t [|t2 more]] eqn:Et;
    try done.
  exists fp, (body_Description b), expires. eexists.
  split; [done|]. split; [done|]. split; [done|]. split; [done|].
  split.
  - by apply (userHandler_GET_run W now' get _ e t).
  - cbn [ActiveCerts described]. unfold Go.sort_Slice.
    rewrite merge_sort_Permutation. apply list_elem_of_filter. split; [done|].
    unfold scanned_certs. apply list_elem_of_fmap_2.
    unfold Sql.select_certs_by_email. cbn [certs set_certs set_events].
    rewrite filter_app. apply elem_of_app. right.
    rewrite filter_cons_True by done. left.
Qed.

End more_issue_facts.

Lemma Issue_rejects_malformed_witness :
  certsHandler Sample.W0 200
    {| Method := "POST"; Path := "/certs/alice@example.com"; ParseForm := Some "";
       PopulateFromBody := Some {| body_Email := "bob@example.com";
                                   body_Description := "tablet" |} |}
    Sample.alice_db
  = Ok {| status := StatusBadRequest; body := J_empty |} Sample.alice_db.
Proof.
  apply Issue_rejects_malformed; [reflexivity|].
  right. right. eexists. split; [reflexivity|]. left. vm_compute. discriminate.
Defined.

Lemma Created_is_persisted_and_listed_witness :
  ∃ resp db' u,
    certsHandler Sample.W0 200 (Sample.issue_request "alice@example.com" "tablet")
      Sample.alice_db = Ok resp db'
    ∧ status resp = StatusCreated
    ∧ userHandler Sample.W0 300 (Sample.request "GET" "/user/alice@example.com") db'
      = Ok {| status := StatusOK; body := J_user u |} db'
    ∧ Description <$> ActiveCerts u = ["laptop"; "tablet"].
Proof.
  destruct (certsHandler Sample.W0 200
              (Sample.issue_request "alice@example.com" "tablet") Sample.alice_db)
    as [resp db'|] eqn:Hrun; [|vm_compute in Hrun; discriminate].
  assert (status resp = StatusCreated) as Hst
    by (vm_compute in Hrun; injection Hrun as <- <-; reflexivity).
  destruct (Created_is_persisted_and_listed Sample.W0 200 300
              (Sample.issue_request "alice@example.com" "tablet")
              (Sample.request "GET" "/user/alice@example.com")
              Sample.alice_db resp db' "alice@example.com")
    as (fp & desc & expires & u & _ & _ & _ & _ & H5 & _);
    [reflexivity | vm_compute; reflexivity | exact Hrun | exact Hst
    | reflexivity | vm_compute; reflexivity |].
  exists resp, db', u. split; [reflexivity|]. split; [exact Hst|].
  split; [exact H5|].
  vm_compute in Hrun. injection Hrun as <- <-.
  vm_compute in H5. injection H5 as <-. reflexivity.
Defined.

(** ** Enrolling and then describing *)

Section enroll_describe_facts.
Context (W : World).

(** X25: After a [PUT /user/<email>] that succeeds, [GET /user/<email>] is
    answered 200 with the time of the enrollment as creation time and with
    the certificate rows that name the email: none for an email that no
    certificate row names, and again those of an identity that was removed
    earlier. *)
Theorem Enroll_then_Describe now now' put get db e s key img :
  Method put = "PUT" → extractSegment (Path put) 2 = e → e ≠ "" →
  loadSettings db = Ok s db →
  totp_Generate W (ServiceName s) e = Some key →
  Image key = Some img →
  Method get = "GET" → extractSegment (Path get) 2 = e →
  ∃ resp db' u,
    userHandler W now put db = Ok resp db'
    ∧ userHandler W now' get db' = Ok {| status := StatusOK; body := J_user u |} db'
    ∧ Email u = e ∧ user_Created u = Some now
    ∧ ActiveCerts u ++ RevokedCerts u ≡ₚ scanned_certs e db
    ∧ (e ∉ c_email <$> certs db → ActiveCerts u = [] ∧ RevokedCerts u = []).
Proof.
  intros HMp HPp He Hs Hk Hi HMg HPg.
  eexists _, (enrolled now e (Secret key) db), (described e now db).
  split; [by eapply userHandler_PUT_run|]. split.
  - rewrite (userHandler_GET_run W now' get (enrolled now e (Secret key) db) e
               {| t_email := e; t_seed := Secret key; t_created := now;
                  t_updated := now |}); [reflexivity | done..|].
    cbn [totp enrolled]. rewrite filter_app, list_filter_filter.
    rewrite filter_none by (apply Forall_forall; by intros x _ [? ?]).
    by rewrite filter_cons_True.
  - split; [done|]. split; [done|]. cbn [ActiveCerts RevokedCerts described].
    unfold Go.sort_Slice. split.
    + rewrite !merge_sort_Permutation. apply filter_app_complement.
    + intros Habs. unfold scanned_certs, Sql.select_certs_by_email.
      rewrite (filter_none (λ r, c_email r = e)); [done|].
      apply Forall_forall. intros c Hc E.
      apply Habs. rewrite <- E. by apply list_elem_of_fmap_2.
Qed.

End enroll_describe_facts.

Lemma Enroll_then_Describe_witness :
  ∃ resp db' u,
    userHandler Sample.W0 200 (Sample.request "PUT" "/user/alice@example.com")
      Sample.orphan_db = Ok resp db'
    ∧ userHandler Sample.W0 300 (Sample.request "GET" "/user/alice@example.com") db'
      = Ok {| status := StatusOK; body := J_user u |} db'
    ∧ Email u = "alice@example.com" ∧ user_Created u = Some 200
    ∧ ActiveCerts u ++ RevokedCerts u
      ≡ₚ scanned_certs "alice@example.com" Sample.orphan_db.
Proof.
  destruct (Enroll_then_Describe Sample.W0 200 300
              (Sample.request "PUT" "/user/alice@example.com")
              (Sample.request "GET" "/user/alice@example.com")
              Sample.orphan_db "alice@example.com" default_settings
              {| Secret := "SEED-alice@example.com"; Image := Some "png" |} "png")
    as (resp & db' & u & H1 & H2 & H3 & H4 & H5 & _);
    [reflexivity | vm_compute; reflexivity | discriminate | vm_compute; reflexivity
    | vm_compute; reflexivity | reflexivity | reflexivity | vm_compute; reflexivity |].
  exists resp, db', u. repeat split; assumption.
Defined.
